(** * SessionProjectContext: the project context of a session

    A shallow embedding of [src/cpp/session/projects/SessionProjectContext.cpp]:
    the writability probe, the scratch-path computation, the two-phase
    [startup] / [initialize] lifecycle and the file-monitor callbacks of
    [ProjectContext].

    The functions of the translation unit are embedded statement by
    statement.  What they call but do not define (the [FilePath] class, the
    file serializer, the project-file codec, the settings store, the R call
    bridge, the client-event queue) is either modelled on a small file system
    or taken from an [Environment] record of collaborators.  Every call that
    leaves the translation unit is recorded, in order, in a trace. *)

From stdpp Require Import base option list strings gmap.
From Stdlib Require Import ZArith.

Local Open Scope string_scope.
Local Open Scope list_scope.

(** ** Paths *)

(** A [FilePath] is kept as the sequence of its path elements, the way
    iterating a path yields them: ["/"; "p"; "proj.rproj"] for
    [/p/proj.rproj].  The default-constructed (empty) [FilePath] is [[]]. *)
Abbreviation FilePath := (list string).

(** Modelled from the spec: [FilePath::empty], declared outside this
    translation unit; true of the default-constructed path only. *)
Definition empty_ (p : FilePath) : bool :=
  match p with
  | [] => true
  | _ :: _ => false
  end.

(** Modelled from the spec: [FilePath::parent], "same parent" of a project
    file; the path without its last element. *)
Definition parent (p : FilePath) : FilePath := removelast p.

(** Modelled from the spec: [FilePath::complete], "descend into a
    subdirectory named" [name]; [name] is taken as one path element. *)
Definition complete (p : FilePath) (name : string) : FilePath := p ++ [name].

(** Modelled from the spec: [FilePath::isWithin], "equal to or nested under"
    the scope path: the scope's elements start the path's. *)
Definition isWithin (p scope : FilePath) : bool :=
  bool_decide (scope `prefix_of` p).

(** ** Errors *)

Inductive errc :=
| permission_denied
| no_such_file_or_directory
| not_a_directory
| is_a_directory
| invalid_argument
| io_error.

(** [core::Error]: [Success] is the value that converts to [false]. *)
Inductive Error :=
| Success
| pathNotFoundError (path : FilePath)
| systemError (code : errc)
| collaboratorError (category message : string).

Definition isError (e : Error) : bool :=
  match e with
  | Success => false
  | _ => true
  end.

#[global] Instance errc_eq_dec : EqDecision errc.
Proof. solve_decision. Defined.

#[global] Instance Error_eq_dec : EqDecision Error.
Proof. solve_decision. Defined.

(** ** The file system *)

Inductive Node :=
| File (contents : string)
| Directory.

(** The operations the environment can refuse (permissions, read-only
    media, quota, ...). *)
Inductive FsOp :=
| OpWrite (p : FilePath)
| OpRemove (p : FilePath)
| OpCreateDirectory (p : FilePath)
| OpHide (p : FilePath).

Record FileSystem := {
  nodes : gmap FilePath Node;
  hiddenPaths : gset FilePath;
  refuses : FsOp -> option errc
}.

Definition withNodes (fs : FileSystem) (m : gmap FilePath Node) : FileSystem :=
  {| nodes := m; hiddenPaths := hiddenPaths fs; refuses := refuses fs |}.

Definition withHidden (fs : FileSystem) (h : gset FilePath) : FileSystem :=
  {| nodes := nodes fs; hiddenPaths := h; refuses := refuses fs |}.

Module fsys.

(** Modelled from the spec: [FilePath::exists], the "path existence" probe;
    the empty path names nothing. *)
Definition exists_ (fs : FileSystem) (p : FilePath) : bool :=
  negb (empty_ p) && bool_decide (is_Some (nodes fs !! p)).

Definition isDirectory (fs : FileSystem) (p : FilePath) : bool :=
  match nodes fs !! p with
  | Some Directory => true
  | _ => false
  end.

(** Modelled from the spec: [core::writeStringToFile], the probe write of a
    file into a directory; it needs the directory, and replaces a file of
    the same name. *)
Definition writeStringToFile (fs : FileSystem) (p : FilePath) (s : string)
  : FileSystem * Error :=
  match refuses fs (OpWrite p) with
  | Some c => (fs, systemError c)
  | None =>
      if isDirectory fs (parent p) then
        match nodes fs !! p with
        | Some Directory => (fs, systemError is_a_directory)
        | _ => (withNodes fs (<[p := File s]> (nodes fs)), Success)
        end
      else (fs, systemError no_such_file_or_directory)
  end.

(** Modelled from the spec: [FilePath::removeIfExists], the delete half of
    "create-then-delete"; nothing to do for a path that is not there. *)
Definition removeIfExists (fs : FileSystem) (p : FilePath)
  : FileSystem * Error :=
  if exists_ fs p then
    match refuses fs (OpRemove p) with
    | Some c => (fs, systemError c)
    | None =>
        (withNodes fs (filter (fun kv => ¬ (p `prefix_of` kv.1)) (nodes fs)),
         Success)
    end
  else (fs, Success).

(** Modelled from the spec: the "directory creation" primitive behind
    [FilePath::ensureDirectory].  It makes a directory and its missing
    ancestors, outermost first: [base] is what is already known to be
    there, [rest] what remains. *)
Fixpoint create_directories (fs : FileSystem) (base : FilePath)
    (rest : list string) : FileSystem * Error :=
  match rest with
  | [] => (fs, Success)
  | name :: rest' =>
      let p := base ++ [name] in
      match nodes fs !! p with
      | Some Directory => create_directories fs p rest'
      | Some (File _) => (fs, systemError not_a_directory)
      | None =>
          match refuses fs (OpCreateDirectory p) with
          | Some c => (fs, systemError c)
          | None =>
              create_directories
                (withNodes fs (<[p := Directory]> (nodes fs))) p rest'
          end
      end
  end.

Definition createDirectory (fs : FileSystem) (p : FilePath)
  : FileSystem * Error :=
  match p with
  | [] => (fs, systemError invalid_argument)
  | _ :: _ => create_directories fs [] p
  end.

(** Modelled from the spec: [FilePath::ensureDirectory], "creating it if
    absent": a path that exists is left alone. *)
Definition ensureDirectory (fs : FileSystem) (p : FilePath)
  : FileSystem * Error :=
  if exists_ fs p then (fs, Success) else createDirectory fs p.

(** Modelled from the spec: [core::system::makeFileHidden], "mark it hidden
    after creation". *)
Definition makeFileHidden (fs : FileSystem) (p : FilePath)
  : FileSystem * Error :=
  match refuses fs (OpHide p) with
  | Some c => (fs, systemError c)
  | None => (withHidden fs ({[p]} ∪ hiddenPaths fs), Success)
  end.

End fsys.

(** ** Data of the project context *)

(** [r_util::RProjectConfig], the fields this translation unit reads. *)
Record RProjectConfig := {
  useSpacesForTab : bool;
  numSpacesForTab : Z;
  encoding : string
}.

Inductive JsonValue :=
| json_bool (b : bool)
| json_int (z : Z)
| json_string (s : string).

(** [json::Object]: a map from member names to values. *)
Abbreviation JsonObject := (gmap string JsonValue).

Inductive ClientEventType := kShowWarningBar.

Record ClientEvent := {
  eventType : ClientEventType;
  eventData : JsonObject
}.

Inductive FileChangeType := FileAdded | FileModified | FileRemoved.

Record FileChangeEvent := {
  changeType : FileChangeType;
  changedFile : FilePath
}.

(** [core::system::file_monitor::Handle]. *)
Abbreviation Handle := nat.

(** A subscriber's function, by name: calling it is an entry of the trace. *)
Abbreviation Slot := nat.

(** [core::system::file_monitor::Callbacks]: each member is a function
    object that may be empty. *)
Record Callbacks := {
  onRegistered : option Slot;
  onRegistrationError : option Slot;
  onMonitoringError : option Slot;
  onFilesChanged : option Slot;
  onUnregistered : option Slot
}.

Inductive SignalArgs :=
| args_registered (handle : Handle) (files : list FilePath)
| args_error (error : Error)
| args_filesChanged (events : list FileChangeEvent)
| args_unregistered (handle : Handle).

(** The data members of [ProjectContext]; a signal is the list of the slots
    connected to it, in connection order. *)
Record ProjectContext := {
  file_ : FilePath;
  directory_ : FilePath;
  scratchPath_ : FilePath;
  config_ : RProjectConfig;
  defaultEncoding_ : string;
  hasFileMonitor_ : bool;
  onFileMonitorRegistered_ : list Slot;
  onFileMonitorRegistrationError_ : list Slot;
  onMonitoringError_ : list Slot;
  onFilesChanged_ : list Slot;
  onFileMonitorUnregistered_ : list Slot
}.

Definition set_identity (ctx : ProjectContext) (file directory scratchPath : FilePath)
    (config : RProjectConfig) : ProjectContext :=
  {| file_ := file;
     directory_ := directory;
     scratchPath_ := scratchPath;
     config_ := config;
     defaultEncoding_ := defaultEncoding_ ctx;
     hasFileMonitor_ := hasFileMonitor_ ctx;
     onFileMonitorRegistered_ := onFileMonitorRegistered_ ctx;
     onFileMonitorRegistrationError_ := onFileMonitorRegistrationError_ ctx;
     onMonitoringError_ := onMonitoringError_ ctx;
     onFilesChanged_ := onFilesChanged_ ctx;
     onFileMonitorUnregistered_ := onFileMonitorUnregistered_ ctx |}.

Definition set_defaultEncoding (ctx : ProjectContext) (s : string) : ProjectContext :=
  {| file_ := file_ ctx;
     directory_ := directory_ ctx;
     scratchPath_ := scratchPath_ ctx;
     config_ := config_ ctx;
     defaultEncoding_ := s;
     hasFileMonitor_ := hasFileMonitor_ ctx;
     onFileMonitorRegistered_ := onFileMonitorRegistered_ ctx;
     onFileMonitorRegistrationError_ := onFileMonitorRegistrationError_ ctx;
     onMonitoringError_ := onMonitoringError_ ctx;
     onFilesChanged_ := onFilesChanged_ ctx;
     onFileMonitorUnregistered_ := onFileMonitorUnregistered_ ctx |}.

Definition set_hasFileMonitor (ctx : ProjectContext) (b : bool) : ProjectContext :=
  {| file_ := file_ ctx;
     directory_ := directory_ ctx;
     scratchPath_ := scratchPath_ ctx;
     config_ := config_ ctx;
     defaultEncoding_ := defaultEncoding_ ctx;
     hasFileMonitor_ := b;
     onFileMonitorRegistered_ := onFileMonitorRegistered_ ctx;
     onFileMonitorRegistrationError_ := onFileMonitorRegistrationError_ ctx;
     onMonitoringError_ := onMonitoringError_ ctx;
     onFilesChanged_ := onFilesChanged_ ctx;
     onFileMonitorUnregistered_ := onFileMonitorUnregistered_ ctx |}.

(** [signal.connect(f)] when the function object [f] is not empty. *)
Definition connect (signal : list Slot) (f : option Slot) : list Slot :=
  match f with
  | Some s => signal ++ [s]
  | None => signal
  end.

Definition connect_all (ctx : ProjectContext) (cb : Callbacks) : ProjectContext :=
  {| file_ := file_ ctx;
     directory_ := directory_ ctx;
     scratchPath_ := scratchPath_ ctx;
     config_ := config_ ctx;
     defaultEncoding_ := defaultEncoding_ ctx;
     hasFileMonitor_ := hasFileMonitor_ ctx;
     onFileMonitorRegistered_ := connect (onFileMonitorRegistered_ ctx) (onRegistered cb);
     onFileMonitorRegistrationError_ :=
       connect (onFileMonitorRegistrationError_ ctx) (onRegistrationError cb);
     onMonitoringError_ := connect (onMonitoringError_ ctx) (onMonitoringError cb);
     onFilesChanged_ := connect (onFilesChanged_ ctx) (onFilesChanged cb);
     onFileMonitorUnregistered_ :=
       connect (onFileMonitorUnregistered_ ctx) (onUnregistered cb) |}.

(** The context as its constructor leaves it: no project, no monitor. *)
Definition newProjectContext : ProjectContext :=
  {| file_ := [];
     directory_ := [];
     scratchPath_ := [];
     config_ := {| useSpacesForTab := false; numSpacesForTab := 0; encoding := "" |};
     defaultEncoding_ := "";
     hasFileMonitor_ := false;
     onFileMonitorRegistered_ := [];
     onFileMonitorRegistrationError_ := [];
     onMonitoringError_ := [];
     onFilesChanged_ := [];
     onFileMonitorUnregistered_ := [] |}.

(** ** Collaborators and the trace *)

(** What the translation unit reads or calls and does not define.  An
    out-parameter is returned next to the error. *)
Record Environment := {
  env_win32 : bool;
  env_uuid : string;
  env_username : string;
  env_contextId : string;
  env_useSpacesForTab : bool;
  env_numSpacesForTab : Z;
  env_defaultEncoding : string;
  env_summary : Error -> string;
  env_readProjectFile :
    FileSystem -> FilePath -> RProjectConfig ->
    Error * RProjectConfig * bool * option string;
  env_writeProjectFile :
    FileSystem -> FilePath -> RProjectConfig -> FileSystem * Error;
  env_RFunction : string -> string -> Error * string
}.

(** The calls that leave the translation unit. *)
Inductive Call :=
| call_exists (p : FilePath)
| call_generateUuid
| call_writeStringToFile (p : FilePath) (s : string)
| call_removeIfExists (p : FilePath)
| call_ensureDirectory (p : FilePath)
| call_makeFileHidden (p : FilePath)
| call_readProjectFile (p : FilePath) (defaults : RProjectConfig)
| call_writeProjectFile (p : FilePath) (config : RProjectConfig)
| call_LOG_ERROR (error : Error)
| call_RFunction (name arg : string)
| call_enqueClientEvent (event : ClientEvent)
| call_connectDeferredInit
| call_registerMonitor (dir : FilePath) (recursive : bool)
| call_enqueFileChangedEvents (dir : FilePath) (events : list FileChangeEvent)
| call_slot (slot : Slot) (args : SignalArgs).

(** A computation reads and changes the file system and emits its calls. *)
Definition M (A : Type) : Type := FileSystem -> A * FileSystem * list Call.

#[global] Instance M_ret : MRet M := fun A a fs => (a, fs, []).

#[global] Instance M_bind : MBind M := fun A B f m fs =>
  let '(a, fs1, t1) := m fs in
  let '(b, fs2, t2) := f a fs1 in
  (b, fs2, t1 ++ t2).

Definition perform {A : Type} (c : Call) (op : FileSystem -> A * FileSystem) : M A :=
  fun fs => let '(a, fs') := op fs in (a, fs', [c]).

Definition result {A : Type} (r : A * FileSystem * list Call) : A := r.1.1.
Definition finalFs {A : Type} (r : A * FileSystem * list Call) : FileSystem := r.1.2.
Definition trace {A : Type} (r : A * FileSystem * list Call) : list Call := r.2.

(** ** The calls, as computations *)

Definition exists_ (p : FilePath) : M bool :=
  perform (call_exists p) (fun fs => (fsys.exists_ fs p, fs)).

Definition generateUuid (env : Environment) : M string :=
  perform call_generateUuid (fun fs => (env_uuid env, fs)).

Definition writeStringToFile (p : FilePath) (s : string) : M Error :=
  perform (call_writeStringToFile p s)
    (fun fs => let '(fs', e) := fsys.writeStringToFile fs p s in (e, fs')).

Definition removeIfExists (p : FilePath) : M Error :=
  perform (call_removeIfExists p)
    (fun fs => let '(fs', e) := fsys.removeIfExists fs p in (e, fs')).

Definition ensureDirectory (p : FilePath) : M Error :=
  perform (call_ensureDirectory p)
    (fun fs => let '(fs', e) := fsys.ensureDirectory fs p in (e, fs')).

Definition makeFileHidden (p : FilePath) : M Error :=
  perform (call_makeFileHidden p)
    (fun fs => let '(fs', e) := fsys.makeFileHidden fs p in (e, fs')).

Definition LOG_ERROR (error : Error) : M unit :=
  perform (call_LOG_ERROR error) (fun fs => (tt, fs)).

Definition readProjectFile (env : Environment) (p : FilePath)
    (defaults : RProjectConfig)
  : M (Error * RProjectConfig * bool * option string) :=
  perform (call_readProjectFile p defaults)
    (fun fs => (env_readProjectFile env fs p defaults, fs)).

Definition writeProjectFile (env : Environment) (p : FilePath)
    (config : RProjectConfig) : M Error :=
  perform (call_writeProjectFile p config)
    (fun fs => let '(fs', e) := env_writeProjectFile env fs p config in (e, fs')).

(** [r::exec::RFunction(name, arg).call(&value)]: the result is extracted
    into the out-parameter only when the call succeeded. *)
Definition RFunction_call (env : Environment) (name arg : string) (value : string)
  : M (Error * string) :=
  perform (call_RFunction name arg)
    (fun fs =>
       let '(e, r) := env_RFunction env name arg in
       (if isError e then (e, value) else (e, r), fs)).

Definition enqueClientEvent (event : ClientEvent) : M unit :=
  perform (call_enqueClientEvent event) (fun fs => (tt, fs)).

Definition connectDeferredInit : M unit :=
  perform call_connectDeferredInit (fun fs => (tt, fs)).

Definition registerMonitor (dir : FilePath) (recursive : bool) : M unit :=
  perform (call_registerMonitor dir recursive) (fun fs => (tt, fs)).

Definition enqueFileChangedEvents (dir : FilePath)
    (events : list FileChangeEvent) : M unit :=
  perform (call_enqueFileChangedEvents dir events) (fun fs => (tt, fs)).

(** Invoking a signal calls its slots in connection order. *)
Definition emit (signal : list Slot) (args : SignalArgs) : M unit :=
  fun fs => (tt, fs, map (fun s => call_slot s args) signal).

(** ** The translation unit *)

(** [canWriteToProjectDir], lines 37-53. *)
Definition canWriteToProjectDir (env : Environment) (projectDirPath : FilePath)
  : M bool :=
  uuid ← generateUuid env;
  let testFile := complete projectDirPath uuid in
  error ← writeStringToFile testFile "test";
  if isError error then mret false
  else
    error ← removeIfExists testFile;
    (if isError error then LOG_ERROR error else mret tt);;
    mret true.

(** [computeScratchPath], lines 58-96.  [scratchPath] is what
    [*pScratchPath] holds on entry; the second component of the result is
    what it holds on return. *)
Definition computeScratchPath (env : Environment) (projectFile : FilePath)
    (scratchPath : FilePath) : M (Error * FilePath) :=
  let projectUserDir := complete (parent projectFile) ".Rproj.user" in
  projectUserDirExists ← exists_ projectUserDir;
  error ← (if negb projectUserDirExists then
             error ← ensureDirectory projectUserDir;
             if isError error then mret error
             else if env_win32 env then makeFileHidden projectUserDir
                  else mret Success
           else mret Success);
  if isError error then mret (error, scratchPath)
  else
    let username := env_username env in
    '(error, projectUserDir) ←
      (if negb (bool_decide (username = "")) then
         let projectUserDir := complete projectUserDir username in
         error ← ensureDirectory projectUserDir;
         mret (error, projectUserDir)
       else mret (Success, projectUserDir));
    if isError error then mret (error, scratchPath)
    else
      let scratchPath' := complete projectUserDir (env_contextId env) in
      error ← ensureDirectory scratchPath';
      if isError error then mret (error, scratchPath)
      else mret (Success, scratchPath').

(** [ProjectContext::defaultConfig], lines 291-302. *)
Definition defaultConfig (env : Environment) : RProjectConfig :=
  {| useSpacesForTab := env_useSpacesForTab env;
     numSpacesForTab := env_numSpacesForTab env;
     encoding :=
       if negb (bool_decide (env_defaultEncoding env = ""))
       then env_defaultEncoding env
       else "UTF-8" |}.

(** [ProjectContext::startup], lines 104-165.  [userErrMsg] is what
    [*pUserErrMsg] holds on entry; the result carries the returned error,
    what [*pUserErrMsg] holds on return, and the context. *)
Definition startup (env : Environment) (ctx : ProjectContext)
    (projectFile : FilePath) (userErrMsg : string)
  : M (Error * string * ProjectContext) :=
  projectFileExists ← exists_ projectFile;
  if negb projectFileExists then
    mret (pathNotFoundError projectFile, "the project file does not exist", ctx)
  else
    canWrite ← canWriteToProjectDir env (parent projectFile);
    if negb canWrite then
      mret (systemError permission_denied,
            "the project directory is not writeable", ctx)
    else
      '(error, scratchPath) ← computeScratchPath env projectFile [];
      if isError error then
        mret (error, "unable to initialize project - " +:+ env_summary env error, ctx)
      else
        '(error, config, providedDefaults, msg) ←
          readProjectFile env projectFile (defaultConfig env);
        let userErrMsg := default userErrMsg msg in
        if isError error then mret (error, userErrMsg, ctx)
        else
          (if providedDefaults : bool then
             error ← writeProjectFile env projectFile config;
             if isError error then LOG_ERROR error else mret tt
           else mret tt);;
          let ctx := set_identity ctx projectFile (parent projectFile)
                       scratchPath config in
          let ctx := set_hasFileMonitor ctx true in
          mret (Success, userErrMsg, ctx).

(** Modelled from the spec: [ProjectContext::hasProject], an inline member
    of the class declaration; "a project is active" once [startup] has set
    the project file. *)
Definition hasProject (ctx : ProjectContext) : bool := negb (empty_ (file_ ctx)).

(** Modelled from the spec: the inline accessors of the class declaration. *)
Definition hasFileMonitor (ctx : ProjectContext) : bool := hasFileMonitor_ ctx.
Definition directory (ctx : ProjectContext) : FilePath := directory_ ctx.
Definition config (ctx : ProjectContext) : RProjectConfig := config_ ctx.

Definition warningMessage (enc : string) : string :=
  "Project text encoding '" +:+ enc +:+
  "' not available (using UTF-8). You can specify an alternate text encoding via Project Options.".

Definition warningEvent (enc : string) : ClientEvent :=
  {| eventType := kShowWarningBar;
     eventData :=
       <["message" := json_string (warningMessage enc)]>
         (<["severe" := json_bool false]> ∅) |}.

(** [ProjectContext::initialize], lines 167-202. *)
Definition initialize (env : Environment) (ctx : ProjectContext)
  : M (Error * ProjectContext) :=
  if hasProject ctx then
    '(error, value) ←
      RFunction_call env ".rs.validateAndNormalizeEncoding"
        (encoding (config ctx)) (defaultEncoding_ ctx);
    let ctx := set_defaultEncoding ctx value in
    if isError error then mret (error, ctx)
    else
      ctx ← (if bool_decide (defaultEncoding_ ctx = "") then
               let ctx' := set_defaultEncoding ctx "UTF-8" in
               enqueClientEvent (warningEvent (encoding (config ctx')));;
               mret ctx'
             else mret ctx);
      connectDeferredInit;;
      mret (Success, ctx)
  else mret (Success, ctx).

(** [ProjectContext::onDeferredInit], lines 205-221. *)
Definition onDeferredInit (ctx : ProjectContext) : M ProjectContext :=
  registerMonitor (directory ctx) true;;
  mret ctx.

(** The five monitor callbacks, lines 223-254. *)
Definition fileMonitorRegistered (ctx : ProjectContext) (handle : Handle)
    (files : list FilePath) : M ProjectContext :=
  let ctx := set_hasFileMonitor ctx true in
  emit (onFileMonitorRegistered_ ctx) (args_registered handle files);;
  mret ctx.

Definition fileMonitorRegistrationError (ctx : ProjectContext) (error : Error)
  : M ProjectContext :=
  LOG_ERROR error;;
  let ctx := set_hasFileMonitor ctx false in
  emit (onFileMonitorRegistrationError_ ctx) (args_error error);;
  mret ctx.

Definition fileMonitorMonitoringError (ctx : ProjectContext) (error : Error)
  : M ProjectContext :=
  LOG_ERROR error;;
  emit (onMonitoringError_ ctx) (args_error error);;
  mret ctx.

Definition fileMonitorFilesChanged (ctx : ProjectContext)
    (events : list FileChangeEvent) : M ProjectContext :=
  enqueFileChangedEvents (directory ctx) events;;
  emit (onFilesChanged_ ctx) (args_filesChanged events);;
  mret ctx.

Definition fileMonitorUnregistered (ctx : ProjectContext) (handle : Handle)
  : M ProjectContext :=
  let ctx := set_hasFileMonitor ctx false in
  emit (onFileMonitorUnregistered_ ctx) (args_unregistered handle);;
  mret ctx.

(** [ProjectContext::isMonitoringDirectory], lines 256-259. *)
Definition isMonitoringDirectory (ctx : ProjectContext) (dir : FilePath) : bool :=
  hasProject ctx && hasFileMonitor ctx && isWithin dir (directory ctx).

(** [ProjectContext::registerFileMonitorCallbacks], lines 261-274. *)
Definition registerFileMonitorCallbacks (ctx : ProjectContext) (cb : Callbacks)
  : ProjectContext :=
  connect_all ctx cb.

(** [ProjectContext::defaultEncoding], lines 276-279. *)
Definition defaultEncoding (ctx : ProjectContext) : string := defaultEncoding_ ctx.

(** [ProjectContext::uiPrefs], lines 281-288. *)
Definition uiPrefs (ctx : ProjectContext) : JsonObject :=
  <["default_encoding" := json_string (defaultEncoding ctx)]>
    (<["num_spaces_for_tab" := json_int (numSpacesForTab (config_ ctx))]>
       (<["use_spaces_for_tab" := json_bool (useSpacesForTab (config_ ctx))]> ∅)).

(** ** Observations on a run *)

Definition startup_error (r : Error * string * ProjectContext) : Error := r.1.1.
Definition startup_userErrMsg (r : Error * string * ProjectContext) : string := r.1.2.
Definition startup_context (r : Error * string * ProjectContext) : ProjectContext := r.2.

(** The client events enqueued by a trace, in order. *)
Definition clientEvents (t : list Call) : list ClientEvent :=
  omap (fun c => match c with call_enqueClientEvent ev => Some ev | _ => None end) t.

(** The directories a trace asked to ensure, in order. *)
Definition ensuredDirectories (t : list Call) : list FilePath :=
  omap (fun c => match c with call_ensureDirectory p => Some p | _ => None end) t.

(** The project-file rewrites attempted by a trace, in order. *)
Definition rewrites (t : list Call) : list (FilePath * RProjectConfig) :=
  omap (fun c => match c with call_writeProjectFile p c => Some (p, c) | _ => None end) t.

(** The project-file loads attempted by a trace. *)
Definition loads (t : list Call) : list FilePath :=
  omap (fun c => match c with call_readProjectFile p _ => Some p | _ => None end) t.

(** The errors a trace logged, in order. *)
Definition loggedErrors (t : list Call) : list Error :=
  omap (fun c => match c with call_LOG_ERROR e => Some e | _ => None end) t.

(** The scratch path written out from the description of the levels: the
    reserved sibling of the project file, then the user's name when there
    is one, then the context id. *)
Definition projectUserDirOf (projectFile : FilePath) : FilePath :=
  parent projectFile ++ [".Rproj.user"].

Definition userLevelOf (env : Environment) (projectFile : FilePath) : FilePath :=
  if bool_decide (env_username env = "") then projectUserDirOf projectFile
  else projectUserDirOf projectFile ++ [env_username env].

Definition scratchPathOf (env : Environment) (projectFile : FilePath) : FilePath :=
  userLevelOf env projectFile ++ [env_contextId env].

(** The levels below the reserved sibling, outermost first. *)
Definition innerLevels (env : Environment) (projectFile : FilePath) : list FilePath :=
  (if bool_decide (env_username env = "") then [] else [userLevelOf env projectFile])
  ++ [scratchPathOf env projectFile].

(** The three levels of [computeScratchPath] as file-system transitions:
    what each returns, the file system it leaves and the calls it made. *)
Definition siblingLevel (env : Environment) (projectFile : FilePath)
    (fs : FileSystem) : Error * FileSystem * list Call :=
  let pud := projectUserDirOf projectFile in
  if fsys.exists_ fs pud then (Success, fs, [])
  else
    let '(fsa, ea) := fsys.ensureDirectory fs pud in
    if isError ea then (ea, fsa, [call_ensureDirectory pud])
    else if env_win32 env then
      let '(fsb, eb) := fsys.makeFileHidden fsa pud in
      (eb, fsb, [call_ensureDirectory pud; call_makeFileHidden pud])
    else (Success, fsa, [call_ensureDirectory pud]).

Definition userLevel (env : Environment) (projectFile : FilePath)
    (fs : FileSystem) : Error * FileSystem * list Call :=
  if bool_decide (env_username env = "") then (Success, fs, [])
  else
    let '(fsu, eu) := fsys.ensureDirectory fs (userLevelOf env projectFile) in
    (eu, fsu, [call_ensureDirectory (userLevelOf env projectFile)]).

Definition contextLevel (env : Environment) (projectFile : FilePath)
    (fs : FileSystem) : Error * FileSystem * list Call :=
  let '(fs3, e3) := fsys.ensureDirectory fs (scratchPathOf env projectFile) in
  (e3, fs3, [call_ensureDirectory (scratchPathOf env projectFile)]).

(** ** Further observations on a run *)

(** The project-file loads attempted by a trace, with the defaults each was
    given. *)
Definition loadsWithDefaults (t : list Call) : list (FilePath * RProjectConfig) :=
  omap (fun c => match c with call_readProjectFile p d => Some (p, d) | _ => None end) t.

(** The paths a trace asked to mark hidden, in order. *)
Definition hiddenMarks (t : list Call) : list FilePath :=
  omap (fun c => match c with call_makeFileHidden p => Some p | _ => None end) t.


(** The subscriptions to the deferred-init event made by a trace. *)
Definition deferredInitConnections (t : list Call) : nat :=
  length (omap (fun c => match c with call_connectDeferredInit => Some tt | _ => None end) t).

(** The monitors a trace asked to register: directory and recursion flag. *)
Definition monitorRegistrations (t : list Call) : list (FilePath * bool) :=
  omap (fun c => match c with call_registerMonitor d r => Some (d, r) | _ => None end) t.

(** The subscriber functions a trace called, in order, with what each was
    handed. *)
Definition slotCalls (t : list Call) : list (Slot * SignalArgs) :=
  omap (fun c => match c with call_slot s a => Some (s, a) | _ => None end) t.

(** The calls that go to the file system or to the log; the probe and the
    scratch-path computation make no other. *)
Definition fileSystemCall (c : Call) : bool :=
  match c with
  | call_exists _ | call_generateUuid | call_writeStringToFile _ _
  | call_removeIfExists _ | call_ensureDirectory _ | call_makeFileHidden _
  | call_LOG_ERROR _ => true
  | _ => false
  end.

(** Registering the callbacks of several subscribers, one after the
    other. *)
Definition registerAll (ctx : ProjectContext) (cbs : list Callbacks) : ProjectContext :=
  foldl registerFileMonitorCallbacks ctx cbs.

(** A regular file sits at the path. *)
Definition isFile (fs : FileSystem) (p : FilePath) : bool :=
  match nodes fs !! p with
  | Some (File _) => true
  | _ => false
  end.

(** The second file system is the first one with directories added:
    every node is kept as it is, what is new is a directory, a hidden mark
    is never taken away, and what the environment refuses is the same. *)
Definition onlyAddsDirectories (fs fs' : FileSystem) : Prop :=
  refuses fs' = refuses fs /\
  hiddenPaths fs ⊆ hiddenPaths fs' /\
  forall q, nodes fs' !! q = nodes fs !! q \/
            (nodes fs !! q = None /\ nodes fs' !! q = Some Directory).

(** No regular file sits at the path or at one of its ancestors. *)
Definition noFileAbove (fs : FileSystem) (p : FilePath) : Prop :=
  map_Forall (fun q n => match n with
                         | File _ => ~ q `prefix_of` p
                         | Directory => True
                         end) (nodes fs).

#[global] Instance noFileAbove_dec fs p : Decision (noFileAbove fs p).
Proof.
  unfold noFileAbove. apply map_Forall_dec. intros q [c|]; apply _.
Defined.

(** ** What happens to a context after [startup] *)

Inductive Step :=
| do_initialize
| do_onDeferredInit
| do_registerFileMonitorCallbacks (cb : Callbacks)
| do_fileMonitorRegistered (handle : Handle) (files : list FilePath)
| do_fileMonitorRegistrationError (error : Error)
| do_fileMonitorMonitoringError (error : Error)
| do_fileMonitorFilesChanged (events : list FileChangeEvent)
| do_fileMonitorUnregistered (handle : Handle).

Definition step (env : Environment) (s : Step) (ctx : ProjectContext)
  : M ProjectContext :=
  match s with
  | do_initialize => r ← initialize env ctx; mret r.2
  | do_onDeferredInit => onDeferredInit ctx
  | do_registerFileMonitorCallbacks cb => mret (registerFileMonitorCallbacks ctx cb)
  | do_fileMonitorRegistered handle files => fileMonitorRegistered ctx handle files
  | do_fileMonitorRegistrationError error => fileMonitorRegistrationError ctx error
  | do_fileMonitorMonitoringError error => fileMonitorMonitoringError ctx error
  | do_fileMonitorFilesChanged events => fileMonitorFilesChanged ctx events
  | do_fileMonitorUnregistered handle => fileMonitorUnregistered ctx handle
  end.

(** The two callbacks that end a registration in failure or end the
    monitor; a registration that is still pending has seen neither. *)
Definition endsMonitoring (s : Step) : bool :=
  match s with
  | do_fileMonitorRegistrationError _ | do_fileMonitorUnregistered _ => true
  | _ => false
  end.

(** The states a sequence of steps goes through, the first one included. *)
Fixpoint states (env : Environment) (steps : list Step) (ctx : ProjectContext)
    (fs : FileSystem) : list (ProjectContext * FileSystem) :=
  (ctx, fs) ::
  match steps with
  | [] => []
  | s :: steps' =>
      let r := step env s ctx fs in
      states env steps' (result r) (finalFs r)
  end.

(** ** Sequences of steps *)

(** The context and the file system a sequence of steps ends in. *)
Fixpoint runSteps (env : Environment) (steps : list Step) (ctx : ProjectContext)
    (fs : FileSystem) : ProjectContext * FileSystem :=
  match steps with
  | [] => (ctx, fs)
  | s :: steps' =>
      let r := step env s ctx fs in
      runSteps env steps' (result r) (finalFs r)
  end.

(** What the monitor's own callbacks say about it, read off a sequence of
    steps: the last registration, registration error or unregistration
    decides; [b] stands when there was none. *)
Fixpoint monitorFlagAfter (b : bool) (steps : list Step) : bool :=
  match steps with
  | [] => b
  | do_fileMonitorRegistered _ _ :: steps' => monitorFlagAfter true steps'
  | do_fileMonitorRegistrationError _ :: steps' => monitorFlagAfter false steps'
  | do_fileMonitorUnregistered _ :: steps' => monitorFlagAfter false steps'
  | _ :: steps' => monitorFlagAfter b steps'
  end.

(** ** A project on disk *)

Module example.

Definition projectFile : FilePath := ["/"; "p"; "proj.rproj"].

Definition tree : gmap FilePath Node :=
  <[ projectFile := File "Version: 1.0" ]>
    (<[ ["/"; "p"] := Directory ]> (<[ ["/"] := Directory ]> ∅)).

(** Nothing is refused. *)
Definition disk : FileSystem :=
  {| nodes := tree; hiddenPaths := ∅; refuses := fun _ => None |}.

(** Entries can be created but not removed. *)
Definition stickyDisk : FileSystem :=
  {| nodes := tree; hiddenPaths := ∅;
     refuses := fun op => match op with
                          | OpRemove _ => Some permission_denied
                          | _ => None
                          end |}.

(** Nothing can be created. *)
Definition readOnlyDisk : FileSystem :=
  {| nodes := tree; hiddenPaths := ∅;
     refuses := fun op => match op with
                          | OpWrite _ | OpCreateDirectory _ => Some permission_denied
                          | _ => None
                          end |}.

(** Files can be written, directories cannot be made. *)
Definition noMkdirDisk : FileSystem :=
  {| nodes := tree; hiddenPaths := ∅;
     refuses := fun op => match op with
                          | OpCreateDirectory _ => Some permission_denied
                          | _ => None
                          end |}.

(** A codec that fills in the defaults and cannot write them back, and an
    R session that knows [latin1] only. *)
Definition env : Environment :=
  {| env_win32 := false;
     env_uuid := "0b9a6f0e";
     env_username := "alice";
     env_contextId := "ctx1";
     env_useSpacesForTab := true;
     env_numSpacesForTab := 2;
     env_defaultEncoding := "";
     env_summary := fun _ => "error";
     env_readProjectFile := fun _ _ defaults => (Success, defaults, true, None);
     env_writeProjectFile := fun fs _ _ => (fs, systemError io_error);
     env_RFunction := fun _ arg =>
       if bool_decide (arg = "latin1") then (Success, "ISO-8859-1")
       else if bool_decide (arg = "broken")
            then (collaboratorError "r" "evaluation failed", "")
            else (Success, "") |}.

Definition anonymousEnv : Environment :=
  {| env_win32 := env_win32 env;
     env_uuid := env_uuid env;
     env_username := "";
     env_contextId := env_contextId env;
     env_useSpacesForTab := env_useSpacesForTab env;
     env_numSpacesForTab := env_numSpacesForTab env;
     env_defaultEncoding := env_defaultEncoding env;
     env_summary := env_summary env;
     env_readProjectFile := env_readProjectFile env;
     env_writeProjectFile := env_writeProjectFile env;
     env_RFunction := env_RFunction env |}.

(** The context of the project, with the encoding its file asks for. *)
Definition context (enc : string) : ProjectContext :=
  set_hasFileMonitor
    (set_identity newProjectContext projectFile ["/"; "p"]
       ["/"; "p"; ".Rproj.user"; "alice"; "ctx1"]
       {| useSpacesForTab := true; numSpacesForTab := 2; encoding := enc |})
    true.

End example.

(** ** A project whose file cannot be read *)

Module unreadable.

(** The environment of [example], with a codec that rejects the project
    file and says why. *)
Definition env : Environment :=
  {| env_win32 := env_win32 example.env;
     env_uuid := env_uuid example.env;
     env_username := env_username example.env;
     env_contextId := env_contextId example.env;
     env_useSpacesForTab := env_useSpacesForTab example.env;
     env_numSpacesForTab := env_numSpacesForTab example.env;
     env_defaultEncoding := env_defaultEncoding example.env;
     env_summary := env_summary example.env;
     env_readProjectFile := fun _ _ defaults =>
       (collaboratorError "codec" "parse error", defaults, false,
        Some "the project file is malformed");
     env_writeProjectFile := env_writeProjectFile example.env;
     env_RFunction := env_RFunction example.env |}.

End unreadable.

(** * Properties *)

(** ** The file system *)

Section file_system.

Implicit Types (fs : FileSystem) (p q : FilePath).

Lemma exists_is_Some fs p :
  fsys.exists_ fs p = true -> is_Some (nodes fs !! p).
Proof.
  unfold fsys.exists_. intros H. apply andb_prop in H as [_ H].
  by apply bool_decide_eq_true in H.
Qed.

Lemma is_Some_exists fs p :
  p <> [] -> is_Some (nodes fs !! p) -> fsys.exists_ fs p = true.
Proof.
  intros Hp H. unfold fsys.exists_. destruct p; [done|].
  simpl. by apply bool_decide_eq_true.
Qed.

(** Creating directories never removes a node, and touches neither the
    hidden marks nor what the environment refuses. *)
Lemma create_directories_mono fs base rest fs' e q :
  fsys.create_directories fs base rest = (fs', e) ->
  is_Some (nodes fs !! q) -> is_Some (nodes fs' !! q).
Proof.
  revert fs base. induction rest as [|name rest IH]; intros fs base Hc Hq; simpl in Hc.
  - by inversion Hc; subst.
  - destruct (nodes fs !! (base ++ [name])) as [[c|]|] eqn:Hn.
    + by inversion Hc; subst.
    + by eapply IH.
    + destruct (refuses fs (OpCreateDirectory (base ++ [name]))).
      * by inversion Hc; subst.
      * eapply IH; [exact Hc|]. simpl.
        destruct (decide (base ++ [name] = q)) as [->|Hne].
        -- rewrite lookup_insert_eq. by eexists.
        -- by rewrite lookup_insert_ne.
Qed.

Lemma create_directories_created fs base rest fs' :
  fsys.create_directories fs base rest = (fs', Success) ->
  rest <> [] ->
  nodes fs' !! (base ++ rest) = Some Directory.
Proof.
  revert fs base. induction rest as [|name rest IH]; intros fs base Hc Hne; [done|].
  simpl in Hc.
  assert (Hstep : forall fs1,
             nodes fs1 !! (base ++ [name]) = Some Directory ->
             fsys.create_directories fs1 (base ++ [name]) rest = (fs', Success) ->
             nodes fs' !! (base ++ name :: rest) = Some Directory).
  { intros fs1 Hd Hc1. destruct rest as [|name' rest'].
    - simpl in Hc1. by inversion Hc1; subst.
    - replace (base ++ name :: name' :: rest')
        with ((base ++ [name]) ++ name' :: rest') by by rewrite <- app_assoc.
      by eapply IH. }
  destruct (nodes fs !! (base ++ [name])) as [[c|]|] eqn:Hn.
  - by inversion Hc.
  - by eapply Hstep.
  - destruct (refuses fs (OpCreateDirectory (base ++ [name]))); [by inversion Hc|].
    eapply Hstep; [|exact Hc]. simpl. by rewrite lookup_insert_eq.
Qed.

Lemma ensureDirectory_existing fs p :
  fsys.exists_ fs p = true -> fsys.ensureDirectory fs p = (fs, Success).
Proof. intros H. unfold fsys.ensureDirectory. by rewrite H. Qed.

Lemma ensureDirectory_exists fs p fs' :
  fsys.ensureDirectory fs p = (fs', Success) -> fsys.exists_ fs' p = true.
Proof.
  unfold fsys.ensureDirectory. destruct (fsys.exists_ fs p) eqn:He.
  - intros [= <-]. exact He.
  - unfold fsys.createDirectory. destruct p as [|c p]; [done|].
    intros Hc. apply is_Some_exists; [done|].
    apply create_directories_created in Hc; [|done].
    rewrite app_nil_l in Hc. by eexists.
Qed.

Lemma ensureDirectory_mono fs p fs' e q :
  fsys.ensureDirectory fs p = (fs', e) ->
  fsys.exists_ fs q = true -> fsys.exists_ fs' q = true.
Proof.
  unfold fsys.ensureDirectory. destruct (fsys.exists_ fs p).
  - by intros [= <- <-].
  - unfold fsys.createDirectory. destruct p as [|c p].
    + by intros [= <- <-].
    + intros Hc Hq. destruct q as [|d q]; [done|].
      apply is_Some_exists; [done|].
      eapply create_directories_mono; [exact Hc|].
      by apply exists_is_Some.
Qed.

Lemma makeFileHidden_exists fs p fs' e q :
  fsys.makeFileHidden fs p = (fs', e) ->
  fsys.exists_ fs' q = fsys.exists_ fs q.
Proof.
  unfold fsys.makeFileHidden. destruct (refuses fs (OpHide p)); by intros [= <- <-].
Qed.

(** A successful write leaves the file in place. *)
Lemma writeStringToFile_exists fs p s fs' :
  p <> [] ->
  fsys.writeStringToFile fs p s = (fs', Success) -> fsys.exists_ fs' p = true.
Proof.
  intros Hp. unfold fsys.writeStringToFile.
  destruct (refuses fs (OpWrite p)); [done|].
  destruct (fsys.isDirectory fs (parent p)); [|done].
  destruct (nodes fs !! p) as [[c|]|]; try done.
  all: intros [= <-]; apply is_Some_exists; [done|]; simpl;
    rewrite lookup_insert_eq; by eexists.
Qed.

(** A failed operation leaves the file system as it was. *)
Lemma writeStringToFile_failed fs p s fs' e :
  fsys.writeStringToFile fs p s = (fs', e) -> isError e = true -> fs' = fs.
Proof.
  unfold fsys.writeStringToFile.
  destruct (refuses fs (OpWrite p)); [by intros [= <- <-]|].
  destruct (fsys.isDirectory fs (parent p)); [|by intros [= <- <-]].
  destruct (nodes fs !! p) as [[c|]|]; by intros [= <- <-].
Qed.

Lemma removeIfExists_failed fs p fs' e :
  fsys.removeIfExists fs p = (fs', e) -> isError e = true -> fs' = fs.
Proof.
  unfold fsys.removeIfExists. destruct (fsys.exists_ fs p); [|by intros [= <- <-]].
  destruct (refuses fs (OpRemove p)); by intros [= <- <-].
Qed.

End file_system.

(** ** Running computations *)

Lemma run_bind {A B : Type} (m : M A) (f : A -> M B) fs :
  (m ≫= f) fs =
  let '(a, fs1, t1) := m fs in
  let '(b, fs2, t2) := f a fs1 in
  (b, fs2, t1 ++ t2).
Proof. reflexivity. Qed.

Lemma run_ret {A : Type} (a : A) fs : (mret a : M A) fs = (a, fs, []).
Proof. reflexivity. Qed.

Lemma isError_false e : isError e = false -> e = Success.
Proof. by destruct e. Qed.

(** Unfolds the computation in the goal down to the file-system
    transitions. *)
Ltac run :=
  repeat first
    [ rewrite run_bind
    | rewrite run_ret
    | progress unfold exists_, generateUuid, writeStringToFile, removeIfExists,
        ensureDirectory, makeFileHidden, LOG_ERROR, readProjectFile,
        writeProjectFile, RFunction_call, enqueClientEvent, connectDeferredInit,
        registerMonitor, enqueFileChangedEvents, emit, perform
    | progress cbn [negb isError fst snd app] ].

(** Closes a run whose branches are all decided. *)
Ltac settle := rewrite ?run_ret; cbn [app]; rewrite ?app_nil_r; try reflexivity.

(** ** The writability probe *)

(** What [canWriteToProjectDir] does, by the outcome of the probe write and
    of the removal that follows it. *)
Lemma canWriteToProjectDir_run env dir fs :
  let testFile := complete dir (env_uuid env) in
  let '(fs1, ew) := fsys.writeStringToFile fs testFile "test" in
  let '(fs2, er) := fsys.removeIfExists fs1 testFile in
  canWriteToProjectDir env dir fs =
  if isError ew then
    (false, fs1, [call_generateUuid; call_writeStringToFile testFile "test"])
  else
    (true, fs2,
     [call_generateUuid; call_writeStringToFile testFile "test";
      call_removeIfExists testFile]
     ++ (if isError er then [call_LOG_ERROR er] else [])).
Proof.
  intros testFile. unfold canWriteToProjectDir. run. fold testFile.
  destruct (fsys.writeStringToFile fs testFile "test") as [fs1 ew].
  destruct (fsys.removeIfExists fs1 testFile) as [fs2 er] eqn:Hr.
  run. destruct (isError ew); [reflexivity|].
  run. rewrite Hr. destruct (isError er); reflexivity.
Qed.

(** C10: the writability probe answers [true] whenever the probe write of
    the uniquely named file succeeds.  When the removal that follows fails,
    its error is logged and nothing else: the answer is still [true] and the
    probe file stays in the directory. *)
Theorem canWriteToProjectDir_ignores_failed_removal env dir fs fs1 fs2 er :
  let testFile := complete dir (env_uuid env) in
  fsys.writeStringToFile fs testFile "test" = (fs1, Success) ->
  fsys.removeIfExists fs1 testFile = (fs2, er) ->
  result (canWriteToProjectDir env dir fs) = true /\
  (isError er = true ->
   loggedErrors (trace (canWriteToProjectDir env dir fs)) = [er] /\
   finalFs (canWriteToProjectDir env dir fs) = fs1 /\
   fsys.exists_ (finalFs (canWriteToProjectDir env dir fs)) testFile = true).
Proof.
  intros testFile Hw Hr.
  pose proof (canWriteToProjectDir_run env dir fs) as Hrun.
  cbv zeta in Hrun. fold testFile in Hrun. rewrite Hw, Hr in Hrun.
  cbn [isError] in Hrun. rewrite Hrun. split; [reflexivity|].
  intros He. rewrite He. cbn.
  apply removeIfExists_failed in Hr as ->; [|exact He].
  repeat split.
  eapply writeStringToFile_exists; [|exact Hw].
  unfold testFile, complete. by destruct dir.
Qed.

Lemma canWriteToProjectDir_ignores_failed_removal_witness :
  result (canWriteToProjectDir example.env ["/"; "p"] example.stickyDisk) = true /\
  (isError (systemError permission_denied) = true ->
   loggedErrors (trace (canWriteToProjectDir example.env ["/"; "p"] example.stickyDisk))
   = [systemError permission_denied] /\
   finalFs (canWriteToProjectDir example.env ["/"; "p"] example.stickyDisk)
   = withNodes example.stickyDisk
       (<[ ["/"; "p"; "0b9a6f0e"] := File "test" ]> example.tree) /\
   fsys.exists_ (finalFs (canWriteToProjectDir example.env ["/"; "p"] example.stickyDisk))
     ["/"; "p"; "0b9a6f0e"] = true).
Proof.
  eapply (canWriteToProjectDir_ignores_failed_removal
            example.env ["/"; "p"] example.stickyDisk); reflexivity.
Defined.

(** ** The scratch path *)

Section scratch_path.

Local Arguments fsys.exists_ : simpl never.
Local Arguments fsys.ensureDirectory : simpl never.
Local Arguments fsys.makeFileHidden : simpl never.
Local Arguments isError : simpl never.

(** Unfolds a computation down to the file-system transitions. *)
Ltac expose :=
  unfold mbind, M_bind, mret, M_ret, exists_, ensureDirectory, makeFileHidden,
    perform; cbn.

Ltac last_level :=
  match goal with
  | |- context [fsys.ensureDirectory ?f ?p] =>
      let e := fresh "e" in
      let He := fresh "He" in
      destruct (fsys.ensureDirectory f p) as [? e];
      destruct (isError e) eqn:He; cbn;
      [done | by rewrite (isError_false _ He)]
  end.

Ltac inner_levels :=
  match goal with
  | |- context [bool_decide (?u = "")] =>
      destruct (bool_decide (u = "")); cbn;
      [ change (isError Success) with false; cbn; last_level
      | match goal with
        | |- context [fsys.ensureDirectory ?f ?p] =>
            let e := fresh "e" in
            destruct (fsys.ensureDirectory f p) as [? e]; cbn;
            destruct (isError e); cbn; [done | last_level]
        end ]
  end.

Lemma ensuredDirectories_app t1 t2 :
  ensuredDirectories (t1 ++ t2) = ensuredDirectories t1 ++ ensuredDirectories t2.
Proof. apply omap_app. Qed.

(** [computeScratchPath] is its three levels in turn, stopping at the first
    error; the out-parameter is written by the last one only. *)
Lemma computeScratchPath_run env projectFile scratchPath fs :
  computeScratchPath env projectFile scratchPath fs =
  let pud := projectUserDirOf projectFile in
  let '(e1, fs1, t1) := siblingLevel env projectFile fs in
  if isError e1 then ((e1, scratchPath), fs1, call_exists pud :: t1)
  else
    let '(e2, fs2, t2) := userLevel env projectFile fs1 in
    if isError e2 then ((e2, scratchPath), fs2, call_exists pud :: t1 ++ t2)
    else
      let '(e3, fs3, t3) := contextLevel env projectFile fs2 in
      ((e3, if isError e3 then scratchPath else scratchPathOf env projectFile),
       fs3, call_exists pud :: t1 ++ t2 ++ t3).
Proof.
  unfold computeScratchPath, siblingLevel, userLevel, contextLevel,
    scratchPathOf, userLevelOf, complete.
  fold (projectUserDirOf projectFile). cbv zeta.
  generalize (projectUserDirOf projectFile) as pud. intros pud.
  expose.
  destruct (fsys.exists_ fs pud); cbn.
  - change (isError Success) with false. cbn. inner_levels.
  - destruct (fsys.ensureDirectory fs pud) as [fsa ea].
    destruct (isError ea) eqn:Hea; cbn; [by rewrite Hea|].
    destruct (env_win32 env); cbn.
    + destruct (fsys.makeFileHidden fsa pud) as [fsb eb]. cbn.
      destruct (isError eb); cbn; [done|]. inner_levels.
    + change (isError Success) with false. cbn. inner_levels.
Qed.

(** Existence of a path after a chain of directory operations. *)
Ltac still_exists :=
  repeat first
    [ eassumption
    | eapply ensureDirectory_exists; eassumption
    | erewrite makeFileHidden_exists by eassumption
    | eapply ensureDirectory_mono; [eassumption|] ].

Lemma siblingLevel_success env projectFile fs e1 fs1 t1 :
  siblingLevel env projectFile fs = (e1, fs1, t1) ->
  isError e1 = false ->
  fsys.exists_ fs1 (projectUserDirOf projectFile) = true /\
  ensuredDirectories t1 =
    (if fsys.exists_ fs (projectUserDirOf projectFile) then []
     else [projectUserDirOf projectFile]).
Proof.
  unfold siblingLevel. cbv zeta.
  destruct (fsys.exists_ fs _) eqn:Hpud; [by intros [= <- <- <-]|].
  destruct (fsys.ensureDirectory fs _) as [fsa ea] eqn:Ha.
  destruct (isError ea) eqn:Hea; [intros [= <- <- <-]; congruence|].
  apply isError_false in Hea as ->.
  destruct (env_win32 env).
  - destruct (fsys.makeFileHidden fsa _) as [fsb eb] eqn:Hb.
    intros [= <- <- <-] _. split; [still_exists|done].
  - intros [= <- <- <-] _. split; [still_exists|done].
Qed.

Lemma userLevel_success env projectFile fs e2 fs2 t2 :
  userLevel env projectFile fs = (e2, fs2, t2) ->
  isError e2 = false ->
  (forall q, fsys.exists_ fs q = true -> fsys.exists_ fs2 q = true) /\
  Forall (fun p => fsys.exists_ fs2 p = true)
    (if bool_decide (env_username env = "") then []
     else [userLevelOf env projectFile]) /\
  ensuredDirectories t2 =
    (if bool_decide (env_username env = "") then []
     else [userLevelOf env projectFile]).
Proof.
  unfold userLevel. destruct (bool_decide (env_username env = "")).
  - intros [= <- <- <-] _. by repeat split.
  - destruct (fsys.ensureDirectory fs _) as [fsu eu] eqn:Hu.
    intros [= <- <- <-] He. apply isError_false in He as ->.
    split; [intros q Hq; still_exists|]. split; [|done].
    repeat constructor; still_exists.
Qed.

Lemma contextLevel_success env projectFile fs e3 fs3 t3 :
  contextLevel env projectFile fs = (e3, fs3, t3) ->
  isError e3 = false ->
  (forall q, fsys.exists_ fs q = true -> fsys.exists_ fs3 q = true) /\
  fsys.exists_ fs3 (scratchPathOf env projectFile) = true /\
  ensuredDirectories t3 = [scratchPathOf env projectFile].
Proof.
  unfold contextLevel.
  destruct (fsys.ensureDirectory fs _) as [fs3' e3'] eqn:H3.
  intros [= <- <- <-] He. apply isError_false in He as ->.
  split; [intros q Hq; still_exists|]. split; [still_exists|done].
Qed.

(** A successful [computeScratchPath] returns the path made of the levels,
    leaves every level in place, and ensured the levels outermost first
    (the reserved sibling only when it was missing). *)
Lemma computeScratchPath_success env projectFile scratchPath fs :
  let r := computeScratchPath env projectFile scratchPath fs in
  isError (result r).1 = false ->
  result r = (Success, scratchPathOf env projectFile) /\
  Forall (fun p => fsys.exists_ (finalFs r) p = true)
    (projectUserDirOf projectFile :: innerLevels env projectFile) /\
  ensuredDirectories (trace r) =
    (if fsys.exists_ fs (projectUserDirOf projectFile) then []
     else [projectUserDirOf projectFile]) ++ innerLevels env projectFile.
Proof.
  intros r. subst r. rewrite computeScratchPath_run. cbv zeta.
  destruct (siblingLevel env projectFile fs) as [[e1 fs1] t1] eqn:H1.
  destruct (isError e1) eqn:He1; [cbn; congruence|].
  destruct (siblingLevel_success _ _ _ _ _ _ H1 He1) as [Hpud Ht1].
  destruct (userLevel env projectFile fs1) as [[e2 fs2] t2] eqn:H2.
  destruct (isError e2) eqn:He2; [cbn; congruence|].
  destruct (userLevel_success _ _ _ _ _ _ H2 He2) as (Hkeep2 & Hu & Ht2).
  destruct (contextLevel env projectFile fs2) as [[e3 fs3] t3] eqn:H3.
  unfold result, finalFs, trace. cbn [fst snd]. intros He3.
  destruct (contextLevel_success _ _ _ _ _ _ H3 He3) as (Hkeep3 & Hc & Ht3).
  rewrite He3. apply isError_false in He3 as ->. split; [done|]. split.
  - unfold innerLevels. constructor; [by auto|].
    apply Forall_app. split; [|by repeat constructor].
    eapply Forall_impl; [exact Hu|]. by auto.
  - change (call_exists ?p :: ?t) with ([call_exists p] ++ t).
    rewrite !ensuredDirectories_app, Ht1, Ht2, Ht3. done.
Qed.

(** When every level is in place, [computeScratchPath] succeeds and leaves
    the file system as it is. *)
Lemma computeScratchPath_existing env projectFile scratchPath fs :
  Forall (fun p => fsys.exists_ fs p = true)
    (projectUserDirOf projectFile :: innerLevels env projectFile) ->
  let r := computeScratchPath env projectFile scratchPath fs in
  result r = (Success, scratchPathOf env projectFile) /\ finalFs r = fs.
Proof.
  intros Hall r. subst r. rewrite computeScratchPath_run. cbv zeta.
  apply Forall_cons in Hall as [Hpud Hinner].
  unfold innerLevels in Hinner. apply Forall_app in Hinner as [Hu Hc].
  apply Forall_inv in Hc.
  unfold siblingLevel. cbv zeta. rewrite Hpud. cbn [isError].
  unfold userLevel, contextLevel.
  destruct (bool_decide (env_username env = "")).
  - cbn [isError]. by rewrite (ensureDirectory_existing _ _ Hc).
  - apply Forall_inv in Hu.
    rewrite (ensureDirectory_existing _ _ Hu). cbn [isError].
    by rewrite (ensureDirectory_existing _ _ Hc).
Qed.

End scratch_path.

(** C6: for [/p/proj.rproj], user [alice] and context id [ctx1], a
    successful scratch-path computation returns
    [/p/.Rproj.user/alice/ctx1]; it ensures the levels outermost first
    ([.Rproj.user] only when it was missing, then [alice], then [ctx1]) and
    leaves each of them in place.  With an empty user name, for any project
    file and context id, the user level is skipped: the context id goes
    straight under [.Rproj.user]. *)
Theorem computeScratchPath_levels env projectFile scratchPath fs :
  let r := computeScratchPath env projectFile scratchPath fs in
  isError (result r).1 = false ->
  (projectFile = ["/"; "p"; "proj.rproj"] ->
   env_username env = "alice" ->
   env_contextId env = "ctx1" ->
   result r = (Success, ["/"; "p"; ".Rproj.user"; "alice"; "ctx1"]) /\
   ensuredDirectories (trace r) =
     (if fsys.exists_ fs ["/"; "p"; ".Rproj.user"] then []
      else [["/"; "p"; ".Rproj.user"]]) ++
     [["/"; "p"; ".Rproj.user"; "alice"];
      ["/"; "p"; ".Rproj.user"; "alice"; "ctx1"]] /\
   Forall (fun p => fsys.exists_ (finalFs r) p = true)
     [["/"; "p"; ".Rproj.user"];
      ["/"; "p"; ".Rproj.user"; "alice"];
      ["/"; "p"; ".Rproj.user"; "alice"; "ctx1"]]) /\
  (env_username env = "" ->
   let projectUserDir := complete (parent projectFile) ".Rproj.user" in
   result r = (Success, complete projectUserDir (env_contextId env)) /\
   ensuredDirectories (trace r) =
     (if fsys.exists_ fs projectUserDir then [] else [projectUserDir]) ++
     [complete projectUserDir (env_contextId env)] /\
   Forall (fun p => fsys.exists_ (finalFs r) p = true)
     [projectUserDir; complete projectUserDir (env_contextId env)]).
Proof.
  intros r Hok.
  destruct (computeScratchPath_success env projectFile scratchPath fs Hok)
    as (Hres & Hex & Hens).
  fold r in Hres, Hex, Hens.
  unfold innerLevels, scratchPathOf, userLevelOf, projectUserDirOf in *.
  split.
  - intros -> Hu Hc. rewrite Hu, Hc in *. cbn in Hres, Hex, Hens. done.
  - intros Hu. cbv zeta. unfold complete. rewrite Hu in *.
    cbn in Hres, Hex, Hens. done.
Qed.

Lemma computeScratchPath_levels_witness :
  (result (computeScratchPath example.env example.projectFile [] example.disk)
   = (Success, ["/"; "p"; ".Rproj.user"; "alice"; "ctx1"]) /\
   ensuredDirectories
     (trace (computeScratchPath example.env example.projectFile [] example.disk))
   = [["/"; "p"; ".Rproj.user"];
      ["/"; "p"; ".Rproj.user"; "alice"];
      ["/"; "p"; ".Rproj.user"; "alice"; "ctx1"]]) /\
  (result (computeScratchPath example.anonymousEnv example.projectFile []
             example.disk)
   = (Success, ["/"; "p"; ".Rproj.user"; "ctx1"]) /\
   ensuredDirectories
     (trace (computeScratchPath example.anonymousEnv example.projectFile []
               example.disk))
   = [["/"; "p"; ".Rproj.user"]; ["/"; "p"; ".Rproj.user"; "ctx1"]]).
Proof.
  split.
  - pose proof (computeScratchPath_levels example.env example.projectFile []
                  example.disk eq_refl) as [H _].
    destruct (H eq_refl eq_refl eq_refl) as (Hres & Hens & _).
    split; [exact Hres | exact Hens].
  - pose proof (computeScratchPath_levels example.anonymousEnv
                  example.projectFile [] example.disk eq_refl) as [_ H].
    destruct (H eq_refl) as (Hres & Hens & _).
    split; [exact Hres | exact Hens].
Defined.

(** C7: when a first [computeScratchPath] has succeeded, a second one on
    the file system it left succeeds as well, returns the same path, and
    changes nothing: every level is already there. *)
Theorem computeScratchPath_idempotent env projectFile scratchPath scratchPath' fs :
  let first := computeScratchPath env projectFile scratchPath fs in
  let second := computeScratchPath env projectFile scratchPath' (finalFs first) in
  isError (result first).1 = false ->
  (result second).1 = Success /\
  (result second).2 = (result first).2 /\
  finalFs second = finalFs first.
Proof.
  intros first second Hok.
  destruct (computeScratchPath_success env projectFile scratchPath fs Hok)
    as (Hres & Hex & _).
  fold first in Hres, Hex.
  destruct (computeScratchPath_existing env projectFile scratchPath'
              (finalFs first) Hex) as [Hres2 Hfs2].
  fold second in Hres2, Hfs2.
  rewrite Hres, Hres2. done.
Qed.

Lemma computeScratchPath_idempotent_witness :
  let first := computeScratchPath example.env example.projectFile [] example.disk in
  let second :=
    computeScratchPath example.env example.projectFile [] (finalFs first) in
  (result second).1 = Success /\
  (result second).2 = (result first).2 /\
  finalFs second = finalFs first.
Proof.
  apply (computeScratchPath_idempotent example.env example.projectFile [] []
           example.disk).
  reflexivity.
Defined.

(** Without a successful first run there is nothing to repeat: where
    directories cannot be made, the first run fails and the second fails
    the same way. *)
Example computeScratchPath_refused_twice :
  let first :=
    computeScratchPath example.env example.projectFile [] example.noMkdirDisk in
  let second :=
    computeScratchPath example.env example.projectFile [] (finalFs first) in
  result first = (systemError permission_denied, []) /\
  result second = (systemError permission_denied, []).
Proof. split; reflexivity. Qed.

(** ** [startup], step by step *)

(** What [startup] does, by the outcome of each step in turn. *)
Lemma startup_run env ctx projectFile userErrMsg fs :
  startup env ctx projectFile userErrMsg fs =
  if negb (fsys.exists_ fs projectFile) then
    ((pathNotFoundError projectFile, "the project file does not exist", ctx),
     fs, [call_exists projectFile])
  else
    let '(canWrite, fs1, t1) := canWriteToProjectDir env (parent projectFile) fs in
    if negb canWrite then
      ((systemError permission_denied, "the project directory is not writeable", ctx),
       fs1, call_exists projectFile :: t1)
    else
      let '((e2, scratchPath), fs2, t2) := computeScratchPath env projectFile [] fs1 in
      if isError e2 then
        ((e2, "unable to initialize project - " +:+ env_summary env e2, ctx),
         fs2, call_exists projectFile :: t1 ++ t2)
      else
        let '(e3, config, providedDefaults, msg) :=
          env_readProjectFile env fs2 projectFile (defaultConfig env) in
        let t3 := [call_readProjectFile projectFile (defaultConfig env)] in
        if isError e3 then
          ((e3, default userErrMsg msg, ctx),
           fs2, call_exists projectFile :: t1 ++ t2 ++ t3)
        else
          let '(fs3, e4) := env_writeProjectFile env fs2 projectFile config in
          ((Success, default userErrMsg msg,
            set_hasFileMonitor
              (set_identity ctx projectFile (parent projectFile) scratchPath config)
              true),
           (if providedDefaults then fs3 else fs2),
           call_exists projectFile :: t1 ++ t2 ++ t3 ++
           (if providedDefaults
            then call_writeProjectFile projectFile config ::
                 (if isError e4 then [call_LOG_ERROR e4] else [])
            else [])).
Proof.
  unfold startup. rewrite run_bind. unfold exists_ at 1, perform at 1.
  destruct (fsys.exists_ fs projectFile); cbn [negb]; [|reflexivity].
  rewrite run_bind.
  destruct (canWriteToProjectDir env (parent projectFile) fs) as [[canWrite fs1] t1].
  destruct canWrite; cbn [negb]; [|by settle].
  rewrite run_bind.
  destruct (computeScratchPath env projectFile [] fs1) as [[[e2 scratchPath] fs2] t2].
  destruct (isError e2); [by settle|].
  rewrite run_bind. unfold readProjectFile at 1, perform at 1.
  destruct (env_readProjectFile env fs2 projectFile (defaultConfig env))
    as [[[e3 config] providedDefaults] msg].
  cbv zeta. destruct (isError e3); [by settle|].
  rewrite run_bind.
  destruct (env_writeProjectFile env fs2 projectFile config) as [fs3 e4] eqn:Hw.
  destruct providedDefaults.
  - rewrite run_bind. unfold writeProjectFile, perform. rewrite Hw.
    destruct (isError e4); unfold LOG_ERROR, perform; by settle.
  - by settle.
Qed.

(** ** [startup]: the two early failures *)

(** C2: when the project file does not exist, [startup] returns the
    not-found error for it and sets the user message; the only call it made
    is the existence test, so no directory was ensured and the file system
    is as it was. *)
Theorem startup_missing_project_file env ctx projectFile userErrMsg fs :
  fsys.exists_ fs projectFile = false ->
  let r := startup env ctx projectFile userErrMsg fs in
  startup_error (result r) = pathNotFoundError projectFile /\
  isError (startup_error (result r)) = true /\
  startup_userErrMsg (result r) = "the project file does not exist" /\
  startup_context (result r) = ctx /\
  trace r = [call_exists projectFile] /\
  ensuredDirectories (trace r) = [] /\
  finalFs r = fs.
Proof.
  intros He r. subst r. rewrite startup_run, He. repeat split.
Qed.

Lemma startup_missing_project_file_witness :
  let r := startup example.env newProjectContext ["/"; "p"; "other.rproj"] ""
             example.disk in
  startup_error (result r) = pathNotFoundError ["/"; "p"; "other.rproj"] /\
  isError (startup_error (result r)) = true /\
  startup_userErrMsg (result r) = "the project file does not exist" /\
  startup_context (result r) = newProjectContext /\
  trace r = [call_exists ["/"; "p"; "other.rproj"]] /\
  ensuredDirectories (trace r) = [] /\
  finalFs r = example.disk.
Proof.
  apply (startup_missing_project_file example.env newProjectContext
           ["/"; "p"; "other.rproj"] "" example.disk).
  reflexivity.
Defined.

(** C3: when the project file exists and the probe write into its parent
    directory returns an error, [startup] returns permission-denied with
    its user message.  It made three calls (the existence test, the uuid,
    the probe write): no scratch-path step, no load and no rewrite of the
    project file; context and file system are as they were. *)
Theorem startup_unwritable_directory env ctx projectFile userErrMsg fs fs1 ew :
  fsys.exists_ fs projectFile = true ->
  fsys.writeStringToFile fs (complete (parent projectFile) (env_uuid env)) "test"
  = (fs1, ew) ->
  isError ew = true ->
  let r := startup env ctx projectFile userErrMsg fs in
  startup_error (result r) = systemError permission_denied /\
  startup_userErrMsg (result r) = "the project directory is not writeable" /\
  startup_context (result r) = ctx /\
  trace r = [call_exists projectFile; call_generateUuid;
             call_writeStringToFile
               (complete (parent projectFile) (env_uuid env)) "test"] /\
  ensuredDirectories (trace r) = [] /\
  loads (trace r) = [] /\
  rewrites (trace r) = [] /\
  finalFs r = fs.
Proof.
  intros He Hw Herr r. subst r. rewrite startup_run, He. cbn [negb].
  pose proof (canWriteToProjectDir_run env (parent projectFile) fs) as Hrun.
  cbv zeta in Hrun. rewrite Hw in Hrun.
  destruct (fsys.removeIfExists fs1 _) as [fs2 er]. rewrite Herr in Hrun.
  rewrite Hrun. cbn [negb].
  apply writeStringToFile_failed in Hw as ->; [|exact Herr].
  repeat split.
Qed.

Lemma startup_unwritable_directory_witness :
  let r := startup example.env newProjectContext example.projectFile ""
             example.readOnlyDisk in
  startup_error (result r) = systemError permission_denied /\
  startup_userErrMsg (result r) = "the project directory is not writeable" /\
  startup_context (result r) = newProjectContext /\
  trace r = [call_exists example.projectFile; call_generateUuid;
             call_writeStringToFile ["/"; "p"; "0b9a6f0e"] "test"] /\
  ensuredDirectories (trace r) = [] /\
  loads (trace r) = [] /\
  rewrites (trace r) = [] /\
  finalFs r = example.readOnlyDisk.
Proof.
  apply (startup_unwritable_directory example.env newProjectContext
           example.projectFile "" example.readOnlyDisk example.readOnlyDisk
           (systemError permission_denied)); reflexivity.
Defined.

(** ** [startup]: loading the configuration *)

Lemma rewrites_app t1 t2 : rewrites (t1 ++ t2) = rewrites t1 ++ rewrites t2.
Proof. apply omap_app. Qed.

(** Neither the probe nor the scratch-path computation touches the project
    file. *)
Lemma canWriteToProjectDir_rewrites env dir fs :
  rewrites (trace (canWriteToProjectDir env dir fs)) = [].
Proof.
  pose proof (canWriteToProjectDir_run env dir fs) as Hrun. cbv zeta in Hrun.
  destruct (fsys.writeStringToFile fs _ "test") as [fs1 ew].
  destruct (fsys.removeIfExists fs1 _) as [fs2 er].
  rewrite Hrun. by destruct (isError ew), (isError er).
Qed.

Lemma computeScratchPath_rewrites env projectFile scratchPath fs :
  rewrites (trace (computeScratchPath env projectFile scratchPath fs)) = [].
Proof.
  rewrite computeScratchPath_run. cbv zeta.
  unfold siblingLevel, userLevel, contextLevel. cbv zeta.
  destruct (fsys.exists_ fs _).
  all: repeat match goal with
       | |- context [fsys.ensureDirectory ?f ?p] =>
           destruct (fsys.ensureDirectory f p) as [? ?]
       | |- context [fsys.makeFileHidden ?f ?p] =>
           destruct (fsys.makeFileHidden f p) as [? ?]
       | |- context [if isError ?e then _ else _] => destruct (isError e)
       | |- context [if env_win32 ?e then _ else _] => destruct (env_win32 e)
       | |- context [bool_decide ?P] => destruct (bool_decide P)
       end; try reflexivity.
Qed.

(** C8: once the project file is there, the directory is writable, the
    scratch path is made and the load has succeeded, [startup] succeeds and
    stores the loaded configuration.  It attempts the rewrite of the project
    file, with that configuration, exactly once when the loader reports
    injected defaults and not at all otherwise; whatever error the rewrite
    returns is logged, and changes neither the returned error nor the
    stored configuration. *)
Theorem startup_rewrites_defaults_once
    env ctx projectFile userErrMsg fs fs1 t1 scratchPath fs2 t2
    config providedDefaults msg fs3 ew :
  fsys.exists_ fs projectFile = true ->
  canWriteToProjectDir env (parent projectFile) fs = (true, fs1, t1) ->
  computeScratchPath env projectFile [] fs1 = ((Success, scratchPath), fs2, t2) ->
  env_readProjectFile env fs2 projectFile (defaultConfig env)
  = (Success, config, providedDefaults, msg) ->
  env_writeProjectFile env fs2 projectFile config = (fs3, ew) ->
  let r := startup env ctx projectFile userErrMsg fs in
  startup_error (result r) = Success /\
  config_ (startup_context (result r)) = config /\
  rewrites (trace r) = (if providedDefaults then [(projectFile, config)] else []) /\
  trace r =
    call_exists projectFile :: t1 ++ t2 ++
    [call_readProjectFile projectFile (defaultConfig env)] ++
    (if providedDefaults
     then call_writeProjectFile projectFile config ::
          (if isError ew then [call_LOG_ERROR ew] else [])
     else []).
Proof.
  intros He Hw Hs Hl Hrw r.
  pose proof (canWriteToProjectDir_rewrites env (parent projectFile) fs) as Ht1.
  pose proof (computeScratchPath_rewrites env projectFile [] fs1) as Ht2.
  rewrite Hw in Ht1. rewrite Hs in Ht2.
  unfold trace in Ht1, Ht2. cbn [snd] in Ht1, Ht2.
  subst r. rewrite startup_run, He, Hw, Hs, Hl, Hrw. cbn [negb isError].
  cbv zeta. unfold result, trace. cbn [fst snd].
  split; [reflexivity|]. split; [reflexivity|]. split; [|reflexivity].
  change (call_exists ?p :: ?t) with ([call_exists p] ++ t).
  rewrite !rewrites_app, Ht1, Ht2.
  by destruct providedDefaults, (isError ew).
Qed.

Lemma startup_rewrites_defaults_once_witness :
  let r := startup example.env newProjectContext example.projectFile ""
             example.disk in
  let config := {| useSpacesForTab := true; numSpacesForTab := 2;
                   encoding := "UTF-8" |} in
  startup_error (result r) = Success /\
  config_ (startup_context (result r)) = config /\
  rewrites (trace r) = [(example.projectFile, config)] /\
  trace r =
    [call_exists example.projectFile;
     call_generateUuid;
     call_writeStringToFile ["/"; "p"; "0b9a6f0e"] "test";
     call_removeIfExists ["/"; "p"; "0b9a6f0e"];
     call_exists ["/"; "p"; ".Rproj.user"];
     call_ensureDirectory ["/"; "p"; ".Rproj.user"];
     call_ensureDirectory ["/"; "p"; ".Rproj.user"; "alice"];
     call_ensureDirectory ["/"; "p"; ".Rproj.user"; "alice"; "ctx1"];
     call_readProjectFile example.projectFile config;
     call_writeProjectFile example.projectFile config;
     call_LOG_ERROR (systemError io_error)].
Proof.
  pose (probe := canWriteToProjectDir example.env ["/"; "p"] example.disk).
  pose (scratch := computeScratchPath example.env example.projectFile []
                     (finalFs probe)).
  exact (startup_rewrites_defaults_once example.env newProjectContext
           example.projectFile "" example.disk
           (finalFs probe) (trace probe)
           ["/"; "p"; ".Rproj.user"; "alice"; "ctx1"]
           (finalFs scratch) (trace scratch)
           (defaultConfig example.env) true None
           (finalFs scratch) (systemError io_error)
           eq_refl eq_refl eq_refl eq_refl eq_refl).
Defined.

(** ** [startup]: what it leaves in the context *)

(** [startup] either fails and returns the context it was given, or
    succeeds and returns it with the four identity members and the monitor
    flag set. *)
Lemma startup_cases env ctx projectFile userErrMsg fs :
  let r := startup env ctx projectFile userErrMsg fs in
  (isError (startup_error (result r)) = true /\
   startup_context (result r) = ctx) \/
  (startup_error (result r) = Success /\
   fsys.exists_ fs projectFile = true /\
   exists fs2 config providedDefaults msg,
     env_readProjectFile env fs2 projectFile (defaultConfig env)
     = (Success, config, providedDefaults, msg) /\
     startup_context (result r) =
       set_hasFileMonitor
         (set_identity ctx projectFile (parent projectFile)
            (scratchPathOf env projectFile) config)
         true).
Proof.
  intros r. subst r. rewrite startup_run.
  destruct (fsys.exists_ fs projectFile); cbn [negb]; [|by left].
  destruct (canWriteToProjectDir env (parent projectFile) fs) as [[[] fs1] t1];
    cbn [negb]; [|by left].
  pose proof (computeScratchPath_success env projectFile [] fs1) as Hs.
  cbv zeta in Hs.
  destruct (computeScratchPath env projectFile [] fs1) as [[[e2 sp] fs2] t2].
  destruct (isError e2) eqn:He2; [by left|].
  destruct (Hs He2) as [[= -> ->] _].
  destruct (env_readProjectFile env fs2 projectFile (defaultConfig env))
    as [[[e3 config] pd] msg] eqn:Hl.
  cbv zeta. destruct (isError e3) eqn:He3; [by left|].
  apply isError_false in He3 as ->.
  destruct (env_writeProjectFile env fs2 projectFile config) as [fs3 e4].
  right. repeat split. by exists fs2, config, pd, msg.
Qed.

(** C9: [startup] assigns the project file, the directory, the scratch path
    and the configuration together, on success only.  On success all four
    hold the values of this project, the configuration being the one the
    loader returned; on any failure the whole context is the one [startup]
    was given, so none of the four is modified. *)
Theorem startup_identity_all_or_nothing env ctx projectFile userErrMsg fs :
  let r := startup env ctx projectFile userErrMsg fs in
  let ctx' := startup_context (result r) in
  (startup_error (result r) = Success /\
   file_ ctx' = projectFile /\
   directory_ ctx' = parent projectFile /\
   scratchPath_ ctx' = scratchPathOf env projectFile /\
   exists fs2 providedDefaults msg,
     env_readProjectFile env fs2 projectFile (defaultConfig env)
     = (Success, config_ ctx', providedDefaults, msg)) \/
  (isError (startup_error (result r)) = true /\ ctx' = ctx).
Proof.
  intros r ctx'. subst ctx'.
  destruct (startup_cases env ctx projectFile userErrMsg fs)
    as [[Herr Hctx] | (Hok & _ & fs2 & config & pd & msg & Hl & Hctx)];
    fold r in Herr, Hctx || fold r in Hok, Hctx.
  - right. by split.
  - left. rewrite Hctx. cbn. repeat split; [exact Hok|].
    by exists fs2, pd, msg.
Qed.

(** ** [initialize]: the encoding *)

Lemma set_defaultEncoding_same ctx : set_defaultEncoding ctx (defaultEncoding_ ctx) = ctx.
Proof. by destruct ctx. Qed.

(** What [initialize] does with an active project, by the outcome of the R
    call. *)
Lemma initialize_run env ctx fs :
  hasProject ctx = true ->
  let requested := encoding (config ctx) in
  let call := call_RFunction ".rs.validateAndNormalizeEncoding" requested in
  let '(error, value) :=
    env_RFunction env ".rs.validateAndNormalizeEncoding" requested in
  initialize env ctx fs =
  if isError error then ((error, ctx), fs, [call])
  else if bool_decide (value = "") then
    ((Success, set_defaultEncoding ctx "UTF-8"), fs,
     [call; call_enqueClientEvent (warningEvent requested); call_connectDeferredInit])
  else
    ((Success, set_defaultEncoding ctx value), fs, [call; call_connectDeferredInit]).
Proof.
  intros Hp. cbv zeta. unfold initialize. rewrite Hp.
  unfold mbind, M_bind, mret, M_ret, RFunction_call, enqueClientEvent,
    connectDeferredInit, perform.
  destruct (env_RFunction env _ _) as [error value].
  destruct (isError error) eqn:He; cbn -[warningEvent].
  - rewrite He. by rewrite set_defaultEncoding_same.
  - rewrite He. destruct (bool_decide (value = "")); cbn -[warningEvent]; [|done].
    by destruct ctx.
Qed.

(** C1: with a project active, [initialize] resolves the configured
    encoding by the outcome of the normalizing R call.  A non-empty result
    becomes the default encoding as it is, and no client event is enqueued.
    An empty result makes the default encoding "UTF-8" and enqueues exactly
    one event, a warning bar that is not severe and whose message quotes the
    configured encoding.  A failed call makes [initialize] return the call's
    error: the context is untouched and no client event is enqueued. *)
Theorem initialize_resolves_encoding env ctx fs :
  hasProject ctx = true ->
  let requested := encoding (config ctx) in
  let outcome := env_RFunction env ".rs.validateAndNormalizeEncoding" requested in
  let r := initialize env ctx fs in
  (isError outcome.1 = false -> outcome.2 <> "" ->
   (result r).1 = Success /\
   defaultEncoding (result r).2 = outcome.2 /\
   clientEvents (trace r) = []) /\
  (isError outcome.1 = false -> outcome.2 = "" ->
   (result r).1 = Success /\
   defaultEncoding (result r).2 = "UTF-8" /\
   clientEvents (trace r) = [warningEvent requested] /\
   eventType (warningEvent requested) = kShowWarningBar /\
   eventData (warningEvent requested) !! "severe" = Some (json_bool false) /\
   eventData (warningEvent requested) !! "message" =
     Some (json_string
             ("Project text encoding '" +:+ requested +:+
              "' not available (using UTF-8). You can specify an alternate text encoding via Project Options."))) /\
  (isError outcome.1 = true ->
   result r = (outcome.1, ctx) /\
   clientEvents (trace r) = []).
Proof.
  intros Hp requested outcome r.
  pose proof (initialize_run env ctx fs Hp) as Hrun. cbv zeta in Hrun.
  fold requested in Hrun. fold outcome in Hrun. fold r in Hrun.
  destruct outcome as [error value]. cbn [fst snd].
  split; [|split].
  - intros He Hv. rewrite He in Hrun. rewrite bool_decide_eq_false_2 in Hrun by done.
    by rewrite Hrun.
  - intros He Hv. rewrite He in Hrun. rewrite bool_decide_eq_true_2 in Hrun by done.
    rewrite Hrun. repeat split.
  - intros He. rewrite He in Hrun. by rewrite Hrun.
Qed.

Lemma initialize_resolves_encoding_witness :
  (let r := initialize example.env (example.context "latin1") example.disk in
   (result r).1 = Success /\
   defaultEncoding (result r).2 = "ISO-8859-1" /\
   clientEvents (trace r) = []) /\
  (let r := initialize example.env (example.context "KOI8-R") example.disk in
   (result r).1 = Success /\
   defaultEncoding (result r).2 = "UTF-8" /\
   clientEvents (trace r) = [warningEvent "KOI8-R"]) /\
  (let r := initialize example.env (example.context "broken") example.disk in
   result r = (collaboratorError "r" "evaluation failed", example.context "broken") /\
   clientEvents (trace r) = []).
Proof.
  split; [|split].
  - destruct (initialize_resolves_encoding example.env (example.context "latin1")
                example.disk eq_refl) as (H & _ & _).
    apply H; [reflexivity | discriminate].
  - destruct (initialize_resolves_encoding example.env (example.context "KOI8-R")
                example.disk eq_refl) as (_ & H & _).
    destruct (H eq_refl eq_refl) as (H1 & H2 & H3 & _).
    repeat split; assumption.
  - destruct (initialize_resolves_encoding example.env (example.context "broken")
                example.disk eq_refl) as (_ & _ & H).
    apply H. reflexivity.
Defined.

(** ** The monitor *)

(** C4: [isMonitoringDirectory] answers [true] exactly when a project is
    active, the monitor flag is set, and the directory is the project
    directory or lies beneath it.  It answers [false] for a sibling of the
    project directory and for each of its proper ancestors. *)
Theorem isMonitoringDirectory_iff ctx dir :
  (isMonitoringDirectory ctx dir = true <->
   hasProject ctx = true /\ hasFileMonitor ctx = true /\
   (dir = directory ctx \/
    exists below, below <> [] /\ dir = directory ctx ++ below)) /\
  (forall up name name',
     directory ctx = up ++ [name] -> name' <> name ->
     isMonitoringDirectory ctx (up ++ [name']) = false) /\
  (forall below,
     below <> [] -> directory ctx = dir ++ below ->
     isMonitoringDirectory ctx dir = false).
Proof.
  unfold isMonitoringDirectory, isWithin. split; [|split].
  - rewrite !andb_true_iff, bool_decide_eq_true. split.
    + intros [[Hp Hm] [below ->]]. split; [done|]. split; [done|].
      destruct below as [|b below]; [left; by rewrite app_nil_r|].
      right. by exists (b :: below).
    + intros (Hp & Hm & [-> | (below & _ & ->)]); repeat split; try done.
      by apply prefix_app_r.
  - intros up name name' Hd Hne. apply andb_false_intro2.
    apply bool_decide_eq_false. rewrite Hd. intros [k Hk].
    rewrite <- app_assoc in Hk. apply app_inv_head in Hk. by inversion Hk.
  - intros below Hne Hd. apply andb_false_intro2.
    apply bool_decide_eq_false. rewrite Hd. intros [k Hk].
    rewrite <- app_assoc in Hk.
    rewrite <- (app_nil_r dir) in Hk at 1. apply app_inv_head in Hk.
    by destruct below.
Qed.

(** The steps that do not end the monitoring keep the project, its
    directory and the monitor flag. *)
Lemma initialize_keeps env ctx fs :
  let ctx' := (result (initialize env ctx fs)).2 in
  file_ ctx' = file_ ctx /\ directory_ ctx' = directory_ ctx /\
  hasFileMonitor_ ctx' = hasFileMonitor_ ctx.
Proof.
  cbv zeta. unfold initialize.
  destruct (hasProject ctx); [|done].
  unfold mbind, M_bind, mret, M_ret, RFunction_call, enqueClientEvent,
    connectDeferredInit, perform.
  destruct (env_RFunction env _ _) as [error value].
  destruct (isError error) eqn:He; cbn -[warningEvent]; rewrite He; [done|].
  by destruct (bool_decide (value = "")).
Qed.

Lemma step_keeps env s ctx fs :
  endsMonitoring s = false ->
  let ctx' := result (step env s ctx fs) in
  file_ ctx' = file_ ctx /\ directory_ ctx' = directory_ ctx /\
  (hasFileMonitor_ ctx = true -> hasFileMonitor_ ctx' = true).
Proof.
  destruct s; try done; intros _; cbv zeta.
  - destruct (initialize_keeps env ctx fs) as (Hf & Hd & Hm).
    unfold step. rewrite run_bind.
    destruct (initialize env ctx fs) as [[[e c] fs'] t]. cbn in *.
    by rewrite Hm.
Qed.

(** C5: after a successful [startup], and for as long as no callback has
    reported a failed registration or an unregistration,
    [isMonitoringDirectory] answers [true] for the project directory in
    every state the context goes through: the monitor flag was set by
    [startup] itself.  In each of these states, the registration-error
    callback leaves a context for which the answer is [false], and so does
    the unregistration callback. *)
Theorem monitor_flag_until_registration_error
    env ctx projectFile userErrMsg fs steps :
  let r := startup env ctx projectFile userErrMsg fs in
  let visited := states env steps (startup_context (result r)) (finalFs r) in
  isError (startup_error (result r)) = false ->
  Forall (fun s => endsMonitoring s = false) steps ->
  Forall (fun st => isMonitoringDirectory st.1 (parent projectFile) = true /\
                    directory st.1 = parent projectFile) visited /\
  Forall (fun st => forall error,
            isMonitoringDirectory
              (result (fileMonitorRegistrationError st.1 error st.2))
              (parent projectFile) = false) visited /\
  Forall (fun st => forall handle,
            isMonitoringDirectory
              (result (fileMonitorUnregistered st.1 handle st.2))
              (parent projectFile) = false) visited.
Proof.
  intros r visited Hok Hsteps.
  assert (Hinv : Forall (fun st => hasProject st.1 = true /\
                                   hasFileMonitor_ st.1 = true /\
                                   directory_ st.1 = parent projectFile) visited).
  { subst visited.
    destruct (startup_cases env ctx projectFile userErrMsg fs)
      as [[Herr _] | (_ & He & _ & config & _ & _ & _ & Hctx)];
      fold r in Herr || fold r in Hctx; [congruence|].
    assert (H0 : hasProject (startup_context (result r)) = true /\
                 hasFileMonitor_ (startup_context (result r)) = true /\
                 directory_ (startup_context (result r)) = parent projectFile).
    { rewrite Hctx. unfold hasProject. cbn. by destruct projectFile. }
    clear Hctx He Hok. revert H0.
    generalize (startup_context (result r)) (finalFs r). clear r.
    induction Hsteps as [|s steps Hs _ IH]; intros c f H0; cbn [states].
    - constructor; [exact H0 | constructor].
    - constructor; [exact H0|]. apply IH.
      destruct (step_keeps env s c f Hs) as (Hf & Hd & Hm).
      destruct H0 as (Hp & Hmon & Hdir). unfold hasProject in *.
      rewrite Hf, Hd. auto. }
  split; [|split]; eapply Forall_impl; try exact Hinv.
  - intros [c f] (Hp & Hm & Hd). cbn in *.
    unfold isMonitoringDirectory, hasFileMonitor, directory, isWithin.
    rewrite Hp, Hm, Hd. split; [|done]. by apply bool_decide_eq_true.
  - intros [c f] _ error. cbn.
    unfold isMonitoringDirectory. by rewrite andb_false_r.
  - intros [c f] _ handle. cbn.
    unfold isMonitoringDirectory. by rewrite andb_false_r.
Qed.

Lemma monitor_flag_until_registration_error_witness :
  let r := startup example.env newProjectContext example.projectFile ""
             example.disk in
  let visited :=
    states example.env
      [do_initialize; do_onDeferredInit;
       do_registerFileMonitorCallbacks
         {| onRegistered := Some 1; onRegistrationError := Some 2;
            onMonitoringError := None; onFilesChanged := Some 3;
            onUnregistered := None |}]
      (startup_context (result r)) (finalFs r) in
  Forall (fun st => isMonitoringDirectory st.1 ["/"; "p"] = true /\
                    directory st.1 = ["/"; "p"]) visited /\
  Forall (fun st => forall error,
            isMonitoringDirectory
              (result (fileMonitorRegistrationError st.1 error st.2))
              ["/"; "p"] = false) visited /\
  Forall (fun st => forall handle,
            isMonitoringDirectory
              (result (fileMonitorUnregistered st.1 handle st.2))
              ["/"; "p"] = false) visited.
Proof.
  apply (monitor_flag_until_registration_error example.env newProjectContext
           example.projectFile "" example.disk).
  - reflexivity.
  - repeat constructor.
Defined.

(** * Further properties *)

(** ** The default configuration *)

(** X1: the defaults handed to the project-file loader never carry an empty
    encoding: it is the user's default encoding when that is set and
    "UTF-8" otherwise.  The tab settings are the user's. *)
Theorem defaultConfig_encoding_never_empty env :
  encoding (defaultConfig env) <> "" /\
  (env_defaultEncoding env <> "" ->
   encoding (defaultConfig env) = env_defaultEncoding env) /\
  (env_defaultEncoding env = "" -> encoding (defaultConfig env) = "UTF-8") /\
  useSpacesForTab (defaultConfig env) = env_useSpacesForTab env /\
  numSpacesForTab (defaultConfig env) = env_numSpacesForTab env.
Proof.
  unfold defaultConfig. cbn [encoding useSpacesForTab numSpacesForTab].
  case_bool_decide as He; cbn [negb]; repeat split; done.
Qed.

(** ** [initialize] *)

Lemma initialize_no_project env ctx fs :
  hasProject ctx = false -> initialize env ctx fs = ((Success, ctx), fs, []).
Proof. intros Hp. unfold initialize. by rewrite Hp. Qed.

(** X2: without an active project [initialize] does nothing at all: it
    returns success, makes no call (no R call, no event, no subscription)
    and hands back the context and the file system it was given. *)
Theorem initialize_without_project env ctx fs :
  hasProject ctx = false ->
  let r := initialize env ctx fs in
  (result r).1 = Success /\ (result r).2 = ctx /\
  trace r = [] /\ finalFs r = fs.
Proof.
  intros Hp r. subst r. rewrite (initialize_no_project _ _ _ Hp). done.
Qed.

Lemma initialize_without_project_witness :
  let r := initialize example.env newProjectContext example.disk in
  (result r).1 = Success /\ (result r).2 = newProjectContext /\
  trace r = [] /\ finalFs r = example.disk.
Proof.
  apply (initialize_without_project example.env newProjectContext example.disk).
  reflexivity.
Defined.

(** X3: when [initialize] succeeds on an active project, the default
    encoding it leaves is never empty. *)
Theorem initialize_encoding_never_empty env ctx fs :
  hasProject ctx = true ->
  let r := initialize env ctx fs in
  isError (result r).1 = false ->
  defaultEncoding (result r).2 <> "".
Proof.
  intros Hp r. subst r.
  pose proof (initialize_run env ctx fs Hp) as Hrun. cbv zeta in Hrun.
  destruct (env_RFunction env _ _) as [error value].
  rewrite Hrun. destruct (isError error) eqn:He; cbn [result fst snd].
  - unfold result. cbn [fst snd]. congruence.
  - case_bool_decide as Hv; intros _; unfold result; cbn; done.
Qed.

Lemma initialize_encoding_never_empty_witness :
  defaultEncoding
    (result (initialize example.env (example.context "KOI8-R") example.disk)).2 <> "" /\
  defaultEncoding
    (result (initialize example.env (example.context "latin1") example.disk)).2 <> "".
Proof.
  split.
  - apply (initialize_encoding_never_empty example.env (example.context "KOI8-R")
             example.disk); reflexivity.
  - apply (initialize_encoding_never_empty example.env (example.context "latin1")
             example.disk); reflexivity.
Defined.

(** X4: [initialize] subscribes to the deferred-init event exactly once when
    it succeeds on an active project, and not at all otherwise: neither
    without a project nor when the R call failed. *)
Theorem initialize_subscribes_once env ctx fs :
  let r := initialize env ctx fs in
  deferredInitConnections (trace r) =
  if hasProject ctx && negb (isError (result r).1) then 1 else 0.
Proof.
  intros r. subst r. destruct (hasProject ctx) eqn:Hp.
  - pose proof (initialize_run env ctx fs Hp) as Hrun. cbv zeta in Hrun.
    destruct (env_RFunction env _ _) as [error value].
    rewrite Hrun. destruct (isError error) eqn:He.
    + unfold result, trace. cbn [fst snd]. by rewrite He.
    + by case_bool_decide.
  - by rewrite (initialize_no_project _ _ _ Hp).
Qed.

(** X5: [initialize] never touches the file system, and of the context it
    changes the default encoding only: the project file, directory, scratch
    path, configuration, monitor flag and subscribers are the ones it was
    given. *)
Theorem initialize_changes_encoding_only env ctx fs :
  let r := initialize env ctx fs in
  finalFs r = fs /\
  (result r).2 = set_defaultEncoding ctx (defaultEncoding (result r).2).
Proof.
  intros r. subst r. destruct (hasProject ctx) eqn:Hp.
  - pose proof (initialize_run env ctx fs Hp) as Hrun. cbv zeta in Hrun.
    destruct (env_RFunction env _ _) as [error value].
    rewrite Hrun. destruct (isError error).
    + split; [done|]. unfold result. cbn [fst snd].
      unfold defaultEncoding. by rewrite set_defaultEncoding_same.
    + by case_bool_decide.
  - rewrite (initialize_no_project _ _ _ Hp). split; [done|].
    unfold result. cbn [fst snd]. unfold defaultEncoding.
    by rewrite set_defaultEncoding_same.
Qed.

(** ** The writability probe, on its own *)

Lemma parent_complete p name : parent (complete p name) = p.
Proof. apply removelast_last. Qed.

Lemma withNodes_same fs : withNodes fs (nodes fs) = fs.
Proof. by destruct fs. Qed.


(** The probe in a directory where its name is free and nothing it does
    is refused. *)
Lemma canWriteToProjectDir_free_name env dir fs :
  let testFile := complete dir (env_uuid env) in
  fsys.isDirectory fs dir = true ->
  map_Forall (fun q _ => ~ testFile `prefix_of` q) (nodes fs) ->
  refuses fs (OpWrite testFile) = None ->
  refuses fs (OpRemove testFile) = None ->
  canWriteToProjectDir env dir fs =
  (true, fs,
   [call_generateUuid; call_writeStringToFile testFile "test";
    call_removeIfExists testFile]).
Proof.
  intros testFile Hd Hfree Hw Hr.
  pose proof (canWriteToProjectDir_run env dir fs) as Hrun. cbv zeta in Hrun.
  fold testFile in Hrun.
  assert (Hnone : nodes fs !! testFile = None).
  { destruct (nodes fs !! testFile) as [x|] eqn:Hx; [|done].
    by destruct (Hfree _ _ Hx). }
  unfold fsys.writeStringToFile in Hrun.
  rewrite Hw in Hrun. unfold testFile in Hrun at 1.
  rewrite parent_complete, Hd in Hrun. fold testFile in Hrun.
  rewrite Hnone in Hrun.
  unfold fsys.removeIfExists in Hrun.
  rewrite is_Some_exists in Hrun; cycle 1.
  { unfold testFile, complete. by destruct dir. }
  { cbn. rewrite lookup_insert_eq. by eexists. }
  cbn [refuses withNodes] in Hrun. rewrite Hr in Hrun.
  cbn [isError] in Hrun. rewrite Hrun. rewrite app_nil_r. f_equal. f_equal.
  cbn [nodes withNodes hiddenPaths refuses].
  rewrite map_filter_insert_False; cycle 1.
  { cbn. intros H. by apply H. }
  rewrite delete_id by done.
  rewrite map_filter_id; cycle 1.
  { intros q x Hq. cbn. by apply (Hfree q x). }
  by destruct fs.
Qed.

(** X7: create-then-delete is a round trip.  In a directory where the
    probe name is free, with neither the write nor the removal refused, the
    probe answers [true] and leaves the file system exactly as it found it,
    with nothing logged. *)
Theorem canWriteToProjectDir_leaves_no_trace env dir fs :
  let testFile := complete dir (env_uuid env) in
  fsys.isDirectory fs dir = true ->
  map_Forall (fun q _ => ~ testFile `prefix_of` q) (nodes fs) ->
  refuses fs (OpWrite testFile) = None ->
  refuses fs (OpRemove testFile) = None ->
  let r := canWriteToProjectDir env dir fs in
  result r = true /\ finalFs r = fs /\ loggedErrors (trace r) = [].
Proof.
  intros testFile Hd Hfree Hw Hr r. subst r.
  by rewrite (canWriteToProjectDir_free_name env dir fs Hd Hfree Hw Hr).
Qed.

Lemma canWriteToProjectDir_leaves_no_trace_witness :
  let r := canWriteToProjectDir example.env ["/"; "p"] example.disk in
  result r = true /\ finalFs r = example.disk /\ loggedErrors (trace r) = [].
Proof.
  apply (canWriteToProjectDir_leaves_no_trace example.env ["/"; "p"] example.disk).
  - reflexivity.
  - compute_done.
  - reflexivity.
  - reflexivity.
Defined.

(** ** The scratch path, further *)

Section scratch_path_more.

Implicit Types (fs : FileSystem) (p q : FilePath).

Lemma onlyAddsDirectories_refl fs : onlyAddsDirectories fs fs.
Proof. repeat split; [done|]. by left. Qed.

Lemma onlyAddsDirectories_trans fs1 fs2 fs3 :
  onlyAddsDirectories fs1 fs2 -> onlyAddsDirectories fs2 fs3 ->
  onlyAddsDirectories fs1 fs3.
Proof.
  intros (Hr1 & Hh1 & Hn1) (Hr2 & Hh2 & Hn2). split; [congruence|].
  split; [set_solver|]. intros q.
  destruct (Hn1 q) as [H1 | [H1 H1']], (Hn2 q) as [H2 | [H2 H2']].
  - left. congruence.
  - right. split; congruence.
  - right. split; congruence.
  - congruence.
Qed.

Lemma create_directories_adds fs base rest :
  onlyAddsDirectories fs (fsys.create_directories fs base rest).1.
Proof.
  revert fs base. induction rest as [|name rest IH]; intros fs base; simpl.
  - apply onlyAddsDirectories_refl.
  - destruct (nodes fs !! (base ++ [name])) as [[c|]|] eqn:Hn.
    + apply onlyAddsDirectories_refl.
    + apply IH.
    + destruct (refuses fs _); [apply onlyAddsDirectories_refl|].
      eapply onlyAddsDirectories_trans; [|apply IH].
      repeat split; [done|]. intros q. cbn.
      destruct (decide (base ++ [name] = q)) as [<-|Hne].
      * right. by rewrite lookup_insert_eq.
      * left. by rewrite lookup_insert_ne.
Qed.

Lemma ensureDirectory_adds fs p :
  onlyAddsDirectories fs (fsys.ensureDirectory fs p).1.
Proof.
  unfold fsys.ensureDirectory. destruct (fsys.exists_ fs p).
  - apply onlyAddsDirectories_refl.
  - destruct p; [apply onlyAddsDirectories_refl|]. apply create_directories_adds.
Qed.

Lemma makeFileHidden_adds fs p :
  onlyAddsDirectories fs (fsys.makeFileHidden fs p).1.
Proof.
  unfold fsys.makeFileHidden. destruct (refuses fs _).
  - apply onlyAddsDirectories_refl.
  - repeat split; cbn; [set_solver|]. by left.
Qed.

Lemma siblingLevel_adds env projectFile fs :
  onlyAddsDirectories fs (siblingLevel env projectFile fs).1.2.
Proof.
  unfold siblingLevel. cbv zeta. destruct (fsys.exists_ fs _).
  - apply onlyAddsDirectories_refl.
  - pose proof (ensureDirectory_adds fs (projectUserDirOf projectFile)) as Ha.
    destruct (fsys.ensureDirectory fs _) as [fsa ea]. cbn in Ha.
    destruct (isError ea); [done|]. destruct (env_win32 env); [|done].
    pose proof (makeFileHidden_adds fsa (projectUserDirOf projectFile)) as Hb.
    destruct (fsys.makeFileHidden fsa _) as [fsb eb]. cbn in *.
    by eapply onlyAddsDirectories_trans.
Qed.

Lemma userLevel_adds env projectFile fs :
  onlyAddsDirectories fs (userLevel env projectFile fs).1.2.
Proof.
  unfold userLevel. case_bool_decide.
  - apply onlyAddsDirectories_refl.
  - pose proof (ensureDirectory_adds fs (userLevelOf env projectFile)) as Ha.
    by destruct (fsys.ensureDirectory fs _).
Qed.

Lemma contextLevel_adds env projectFile fs :
  onlyAddsDirectories fs (contextLevel env projectFile fs).1.2.
Proof.
  unfold contextLevel.
  pose proof (ensureDirectory_adds fs (scratchPathOf env projectFile)) as Ha.
  by destruct (fsys.ensureDirectory fs _).
Qed.

Lemma computeScratchPath_adds env projectFile scratchPath fs :
  onlyAddsDirectories fs (finalFs (computeScratchPath env projectFile scratchPath fs)).
Proof.
  rewrite computeScratchPath_run. cbv zeta.
  pose proof (siblingLevel_adds env projectFile fs) as H1.
  destruct (siblingLevel env projectFile fs) as [[e1 fs1] t1]. cbn in H1.
  destruct (isError e1); [done|].
  pose proof (userLevel_adds env projectFile fs1) as H2.
  destruct (userLevel env projectFile fs1) as [[e2 fs2] t2]. cbn in H2.
  destruct (isError e2); [by eapply onlyAddsDirectories_trans|].
  pose proof (contextLevel_adds env projectFile fs2) as H3.
  destruct (contextLevel env projectFile fs2) as [[e3 fs3] t3]. cbn in H3.
  unfold finalFs. cbn.
  eapply onlyAddsDirectories_trans; [exact H1|].
  by eapply onlyAddsDirectories_trans.
Qed.

End scratch_path_more.

(** X8: whether it succeeds or fails, [computeScratchPath] only ever adds
    directories.  Every node that was there is still there with its
    contents, no regular file appears, nothing that existed stops existing,
    and what the environment refuses is unchanged. *)
Theorem computeScratchPath_only_adds_directories env projectFile scratchPath fs :
  let fs' := finalFs (computeScratchPath env projectFile scratchPath fs) in
  onlyAddsDirectories fs fs' /\
  nodes fs ⊆ nodes fs' /\
  (forall q, isFile fs' q = isFile fs q) /\
  (forall q, fsys.exists_ fs q = true -> fsys.exists_ fs' q = true).
Proof.
  intros fs'.
  pose proof (computeScratchPath_adds env projectFile scratchPath fs) as Hadd.
  fold fs' in Hadd. split; [exact Hadd|].
  destruct Hadd as (_ & _ & Hn). split; [|split].
  - apply map_subseteq_spec. intros q x Hq.
    destruct (Hn q) as [H | [H _]]; congruence.
  - intros q. unfold isFile. destruct (Hn q) as [-> | [-> ->]]; done.
  - intros q Hq. destruct q as [|c q]; [done|].
    apply is_Some_exists; [done|]. apply exists_is_Some in Hq.
    destruct (Hn (c :: q)) as [-> | [H _]]; [done|].
    rewrite H in Hq. by destruct Hq.
Qed.

(** X9: when [computeScratchPath] fails, whatever level failed, it leaves
    [*pScratchPath] as it found it; the path is written on success only. *)
Theorem computeScratchPath_failure_keeps_out_parameter
    env projectFile scratchPath fs :
  let r := computeScratchPath env projectFile scratchPath fs in
  isError (result r).1 = true -> (result r).2 = scratchPath.
Proof.
  intros r. subst r. rewrite computeScratchPath_run. cbv zeta.
  destruct (siblingLevel env projectFile fs) as [[e1 fs1] t1].
  destruct (isError e1) eqn:He1; [done|].
  destruct (userLevel env projectFile fs1) as [[e2 fs2] t2].
  destruct (isError e2) eqn:He2; [done|].
  destruct (contextLevel env projectFile fs2) as [[e3 fs3] t3].
  unfold result. cbn. by intros ->.
Qed.

Lemma computeScratchPath_failure_keeps_out_parameter_witness :
  (result (computeScratchPath example.env example.projectFile ["kept"]
             example.noMkdirDisk)).2 = ["kept"].
Proof.
  apply (computeScratchPath_failure_keeps_out_parameter example.env
           example.projectFile ["kept"] example.noMkdirDisk).
  reflexivity.
Defined.

Lemma hiddenMarks_app t1 t2 : hiddenMarks (t1 ++ t2) = hiddenMarks t1 ++ hiddenMarks t2.
Proof. apply omap_app. Qed.

(** X10: the reserved directory is marked hidden only on Windows and only
    by the run that has just created it.  A run that finds it in place, a
    run whose creation failed, and any run elsewhere asks for no hidden
    mark; no other path is ever marked. *)
Theorem computeScratchPath_hides_what_it_created env projectFile scratchPath fs :
  let pud := complete (parent projectFile) ".Rproj.user" in
  let r := computeScratchPath env projectFile scratchPath fs in
  hiddenMarks (trace r) =
  if env_win32 env && negb (fsys.exists_ fs pud)
     && negb (isError (fsys.ensureDirectory fs pud).2)
  then [pud] else [].
Proof.
  intros pud r. subst r. rewrite computeScratchPath_run. cbv zeta.
  assert (H1 : hiddenMarks (siblingLevel env projectFile fs).2 =
               if env_win32 env && negb (fsys.exists_ fs pud)
                  && negb (isError (fsys.ensureDirectory fs pud).2)
               then [pud] else []).
  { unfold siblingLevel. cbv zeta. fold pud.
    change (projectUserDirOf projectFile) with pud.
    destruct (fsys.exists_ fs pud); [by rewrite andb_false_r|].
    destruct (fsys.ensureDirectory fs pud) as [fsa ea]. cbn [snd].
    destruct (isError ea); [by rewrite andb_false_r|].
    destruct (env_win32 env); [|done].
    by destruct (fsys.makeFileHidden fsa pud). }
  assert (H2 : forall fs1, hiddenMarks (userLevel env projectFile fs1).2 = []).
  { intros fs1. unfold userLevel. case_bool_decide; [done|].
    by destruct (fsys.ensureDirectory fs1 _). }
  assert (H3 : forall fs2, hiddenMarks (contextLevel env projectFile fs2).2 = []).
  { intros fs2. unfold contextLevel. by destruct (fsys.ensureDirectory fs2 _). }
  destruct (siblingLevel env projectFile fs) as [[e1 fs1] t1]. cbn [snd] in H1.
  specialize (H2 fs1).
  destruct (userLevel env projectFile fs1) as [[e2 fs2] t2]. cbn [snd] in H2.
  specialize (H3 fs2).
  destruct (contextLevel env projectFile fs2) as [[e3 fs3] t3]. cbn [snd] in H3.
  unfold trace.
  destruct (isError e1); [|destruct (isError e2)]; cbn [snd];
    change (call_exists ?p :: ?t) with ([call_exists p] ++ t);
    rewrite ?hiddenMarks_app, ?H1, ?H2, ?H3, ?app_nil_r; done.
Qed.

(** ** When the scratch path can be made *)

Section permissive.

Implicit Types (fs : FileSystem) (p q : FilePath).

Lemma noFileAbove_lookup fs p q c :
  noFileAbove fs p -> nodes fs !! q = Some (File c) -> ~ q `prefix_of` p.
Proof. intros H Hq. exact (H q (File c) Hq). Qed.

Lemma noFileAbove_prefix fs p p' :
  p' `prefix_of` p -> noFileAbove fs p -> noFileAbove fs p'.
Proof.
  intros Hp H q [c|] Hq; [|done]. intros Hq'.
  apply (H q (File c) Hq). by etrans.
Qed.

Lemma noFileAbove_adds fs fs' p :
  onlyAddsDirectories fs fs' -> noFileAbove fs p -> noFileAbove fs' p.
Proof.
  intros (_ & _ & Hn) H q [c|] Hq; [|done].
  destruct (Hn q) as [He | [_ He]]; [|congruence].
  rewrite He in Hq. exact (H q (File c) Hq).
Qed.

Lemma create_directories_succeeds fs base rest :
  (forall p, refuses fs (OpCreateDirectory p) = None) ->
  noFileAbove fs (base ++ rest) ->
  (fsys.create_directories fs base rest).2 = Success.
Proof.
  revert fs base. induction rest as [|name rest IH]; intros fs base Hr Hf; [done|].
  simpl. replace (base ++ name :: rest) with ((base ++ [name]) ++ rest) in Hf
    by by rewrite <- app_assoc.
  destruct (nodes fs !! (base ++ [name])) as [[c|]|] eqn:Hn.
  - destruct (noFileAbove_lookup _ _ _ _ Hf Hn). by apply prefix_app_r.
  - by apply IH.
  - rewrite Hr. apply IH; [done|].
    intros q [c|] Hq; [|done]. cbn in Hq.
    destruct (decide (base ++ [name] = q)) as [<-|Hne].
    + by rewrite lookup_insert_eq in Hq.
    + rewrite lookup_insert_ne in Hq by done. exact (Hf q (File c) Hq).
Qed.

Lemma ensureDirectory_succeeds fs p :
  p <> [] ->
  (forall p, refuses fs (OpCreateDirectory p) = None) ->
  (fsys.exists_ fs p = false -> noFileAbove fs p) ->
  (fsys.ensureDirectory fs p).2 = Success.
Proof.
  intros Hp Hr Hf. unfold fsys.ensureDirectory.
  destruct (fsys.exists_ fs p); [done|].
  destruct p; [done|]. by apply create_directories_succeeds; [|apply Hf].
Qed.

Lemma noFileAbove_snoc fs p name :
  noFileAbove fs p -> fsys.exists_ fs (p ++ [name]) = false ->
  noFileAbove fs (p ++ [name]).
Proof.
  intros H He q [c|] Hq; [|done]. intros [k Hk].
  destruct k as [|x k _] using rev_ind.
  - rewrite app_nil_r in Hk. subst q.
    rewrite is_Some_exists in He; [done|by destruct p|by eexists].
  - rewrite app_assoc in Hk. apply app_inj_tail in Hk as [-> _].
    apply (H q (File c) Hq). by apply prefix_app_r.
Qed.

(** On a file system that refuses neither the creation of directories nor
    the hidden mark, with no regular file in the way, every level of the
    scratch path can be made. *)
Lemma computeScratchPath_can_succeed env projectFile scratchPath fs :
  (forall p, refuses fs (OpCreateDirectory p) = None) ->
  refuses fs (OpHide (projectUserDirOf projectFile)) = None ->
  noFileAbove fs (userLevelOf env projectFile) ->
  (result (computeScratchPath env projectFile scratchPath fs)).1 = Success.
Proof.
  intros Hr Hh Hf. rewrite computeScratchPath_run. cbv zeta.
  set (pud := projectUserDirOf projectFile) in *.
  assert (Hpud : pud `prefix_of` userLevelOf env projectFile).
  { unfold userLevelOf. fold pud. case_bool_decide; [done|]. by apply prefix_app_r. }
  pose proof (siblingLevel_adds env projectFile fs) as Hadd1.
  assert (H1 : (siblingLevel env projectFile fs).1.1 = Success).
  { unfold siblingLevel. cbv zeta. fold pud.
    destruct (fsys.exists_ fs pud) eqn:He; [done|].
    pose proof (ensureDirectory_succeeds fs pud) as Hs.
    pose proof (ensureDirectory_adds fs pud) as Ha.
    destruct (fsys.ensureDirectory fs pud) as [fsa ea]. cbn in Hs, Ha.
    rewrite Hs; [|by unfold pud, projectUserDirOf; destruct (parent projectFile)
                 |done|by intros _; eapply noFileAbove_prefix].
    cbn [isError]. destruct (env_win32 env); [|done].
    unfold fsys.makeFileHidden. destruct Ha as (-> & _). by rewrite Hh. }
  destruct (siblingLevel env projectFile fs) as [[e1 fs1] t1].
  cbn in H1, Hadd1. subst e1. cbn [isError].
  assert (Hr1 : forall p, refuses fs1 (OpCreateDirectory p) = None).
  { intros p. destruct Hadd1 as (-> & _). apply Hr. }
  pose proof (noFileAbove_adds _ _ _ Hadd1 Hf) as Hf1.
  pose proof (userLevel_adds env projectFile fs1) as Hadd2.
  assert (H2 : (userLevel env projectFile fs1).1.1 = Success).
  { unfold userLevel. case_bool_decide; [done|].
    pose proof (ensureDirectory_succeeds fs1 (userLevelOf env projectFile)) as Hs.
    destruct (fsys.ensureDirectory fs1 _) as [fsu eu]. cbn in *.
    apply Hs; [|done|done].
    unfold userLevelOf. rewrite bool_decide_eq_false_2 by done.
    by destruct (projectUserDirOf projectFile). }
  destruct (userLevel env projectFile fs1) as [[e2 fs2] t2].
  cbn in H2, Hadd2. subst e2. cbn [isError].
  assert (Hr2 : forall p, refuses fs2 (OpCreateDirectory p) = None).
  { intros p. destruct Hadd2 as (-> & _). apply Hr1. }
  pose proof (noFileAbove_adds _ _ _ Hadd2 Hf1) as Hf2.
  unfold contextLevel.
  pose proof (ensureDirectory_succeeds fs2 (scratchPathOf env projectFile)) as Hs.
  destruct (fsys.ensureDirectory fs2 _) as [fs3 e3]. cbn in Hs.
  unfold result. cbn. apply Hs; [|done|].
  - unfold scratchPathOf. by destruct (userLevelOf env projectFile).
  - intros He. by apply noFileAbove_snoc.
Qed.

End permissive.

(** X11: on a file system that refuses neither the creation of directories
    nor the hidden mark, and where no regular file sits at the user level
    or above it, [computeScratchPath] succeeds: it returns the scratch path
    and the path exists afterwards. *)
Theorem computeScratchPath_succeeds_when_permitted env projectFile scratchPath fs :
  (forall p, refuses fs (OpCreateDirectory p) = None) ->
  refuses fs (OpHide (complete (parent projectFile) ".Rproj.user")) = None ->
  noFileAbove fs (userLevelOf env projectFile) ->
  let r := computeScratchPath env projectFile scratchPath fs in
  result r = (Success, scratchPathOf env projectFile) /\
  fsys.exists_ (finalFs r) (scratchPathOf env projectFile) = true.
Proof.
  intros Hr Hh Hf r.
  pose proof (computeScratchPath_can_succeed env projectFile scratchPath fs
                Hr Hh Hf) as Hok.
  fold r in Hok.
  assert (He : isError (result r).1 = false) by by rewrite Hok.
  destruct (computeScratchPath_success env projectFile scratchPath fs He)
    as (Hres & Hex & _).
  fold r in Hres, Hex. split; [exact Hres|].
  apply Forall_cons in Hex as [_ Hex]. unfold innerLevels in Hex.
  apply Forall_app in Hex as [_ Hex]. by apply Forall_inv in Hex.
Qed.

Lemma computeScratchPath_succeeds_when_permitted_witness :
  let r := computeScratchPath example.env example.projectFile [] example.disk in
  result r = (Success, scratchPathOf example.env example.projectFile) /\
  fsys.exists_ (finalFs r) (scratchPathOf example.env example.projectFile) = true.
Proof.
  apply (computeScratchPath_succeeds_when_permitted example.env
           example.projectFile [] example.disk).
  - reflexivity.
  - reflexivity.
  - compute_done.
Defined.

(** ** [startup], further *)

Lemma omap_none {A B : Type} (f : A -> option B) (P : A -> Prop) (l : list A) :
  (forall a, P a -> f a = None) -> Forall P l -> omap f l = [].
Proof.
  intros Hf Hl. induction Hl as [|a l Ha _ IH]; [done|].
  cbn. by rewrite (Hf a Ha).
Qed.

Lemma canWriteToProjectDir_calls env dir fs :
  Forall (fun c => fileSystemCall c = true) (trace (canWriteToProjectDir env dir fs)).
Proof.
  pose proof (canWriteToProjectDir_run env dir fs) as Hrun. cbv zeta in Hrun.
  destruct (fsys.writeStringToFile fs _ "test") as [fs1 ew].
  destruct (fsys.removeIfExists fs1 _) as [fs2 er].
  rewrite Hrun. destruct (isError ew), (isError er); by repeat constructor.
Qed.

Lemma computeScratchPath_calls env projectFile scratchPath fs :
  Forall (fun c => fileSystemCall c = true)
    (trace (computeScratchPath env projectFile scratchPath fs)).
Proof.
  rewrite computeScratchPath_run. cbv zeta.
  unfold siblingLevel, userLevel, contextLevel. cbv zeta.
  destruct (fsys.exists_ fs _).
  all: repeat match goal with
       | |- context [fsys.ensureDirectory ?f ?p] =>
           destruct (fsys.ensureDirectory f p) as [? ?]
       | |- context [fsys.makeFileHidden ?f ?p] =>
           destruct (fsys.makeFileHidden f p) as [? ?]
       | |- context [if isError ?e then _ else _] => destruct (isError e)
       | |- context [if env_win32 ?e then _ else _] => destruct (env_win32 e)
       | |- context [bool_decide ?P] => destruct (bool_decide P)
       end; by repeat constructor.
Qed.

Lemma loadsWithDefaults_app t1 t2 :
  loadsWithDefaults (t1 ++ t2) = loadsWithDefaults t1 ++ loadsWithDefaults t2.
Proof. apply omap_app. Qed.

Lemma loadsWithDefaults_fileSystem t :
  Forall (fun c => fileSystemCall c = true) t -> loadsWithDefaults t = [].
Proof. apply omap_none. by intros []. Qed.

Lemma rewrites_fileSystem t :
  Forall (fun c => fileSystemCall c = true) t -> rewrites t = [].
Proof. apply omap_none. by intros []. Qed.


(** X13: when the scratch path cannot be made, [startup] returns the error
    of [computeScratchPath] and sets the user message to "unable to
    initialize project - " followed by the error's summary.  The context
    is untouched and the project file is neither loaded nor rewritten. *)
Theorem startup_scratch_path_failure env ctx projectFile userErrMsg fs :
  let probe := canWriteToProjectDir env (parent projectFile) fs in
  let scratch := computeScratchPath env projectFile [] (finalFs probe) in
  let r := startup env ctx projectFile userErrMsg fs in
  fsys.exists_ fs projectFile = true ->
  result probe = true ->
  isError (result scratch).1 = true ->
  startup_error (result r) = (result scratch).1 /\
  startup_userErrMsg (result r) =
    "unable to initialize project - " +:+ env_summary env (result scratch).1 /\
  startup_context (result r) = ctx /\
  finalFs r = finalFs scratch /\
  loadsWithDefaults (trace r) = [] /\
  rewrites (trace r) = [].
Proof.
  intros probe scratch r. subst r scratch probe. intros He Hp Hs.
  rewrite startup_run, He. cbn [negb].
  pose proof (canWriteToProjectDir_calls env (parent projectFile) fs) as Hc1.
  destruct (canWriteToProjectDir env (parent projectFile) fs)
    as [[canWrite fs1] t1]. unfold result, finalFs in *.
  cbn [fst snd] in *. subst canWrite. cbn [negb].
  pose proof (computeScratchPath_calls env projectFile [] fs1) as Hc2.
  destruct (computeScratchPath env projectFile [] fs1)
    as [[[e2 scratchPath] fs2] t2]. unfold trace in *. cbn [fst snd] in *.
  rewrite Hs. unfold startup_error, startup_userErrMsg, startup_context.
  cbn [fst snd]. repeat split.
  - change (call_exists ?p :: ?t) with ([call_exists p] ++ t).
    rewrite !loadsWithDefaults_app.
    by rewrite (loadsWithDefaults_fileSystem _ Hc1),
      (loadsWithDefaults_fileSystem _ Hc2).
  - change (call_exists ?p :: ?t) with ([call_exists p] ++ t).
    rewrite !rewrites_app.
    by rewrite (rewrites_fileSystem _ Hc1), (rewrites_fileSystem _ Hc2).
Qed.

Lemma startup_scratch_path_failure_witness :
  let r := startup example.env newProjectContext example.projectFile ""
             example.noMkdirDisk in
  startup_error (result r) = systemError permission_denied /\
  startup_userErrMsg (result r) = "unable to initialize project - error" /\
  startup_context (result r) = newProjectContext /\
  finalFs r = example.noMkdirDisk /\
  loadsWithDefaults (trace r) = [] /\
  rewrites (trace r) = [].
Proof.
  exact (startup_scratch_path_failure example.env newProjectContext
           example.projectFile "" example.noMkdirDisk eq_refl eq_refl eq_refl).
Defined.

(** X14: when the loader rejects the project file, [startup] returns the
    loader's error, and the user message is the one the loader set (the
    caller's own when the loader set none).  The context is untouched, the
    file is not rewritten, and the scratch directories made on the way are
    left in place. *)
Theorem startup_load_failure env ctx projectFile userErrMsg fs :
  let probe := canWriteToProjectDir env (parent projectFile) fs in
  let scratch := computeScratchPath env projectFile [] (finalFs probe) in
  let loaded :=
    env_readProjectFile env (finalFs scratch) projectFile (defaultConfig env) in
  let r := startup env ctx projectFile userErrMsg fs in
  fsys.exists_ fs projectFile = true ->
  result probe = true ->
  isError (result scratch).1 = false ->
  isError loaded.1.1.1 = true ->
  startup_error (result r) = loaded.1.1.1 /\
  startup_userErrMsg (result r) = default userErrMsg loaded.2 /\
  startup_context (result r) = ctx /\
  finalFs r = finalFs scratch /\
  rewrites (trace r) = [].
Proof.
  intros probe scratch loaded r. subst r loaded scratch probe.
  intros He Hp Hs Hl. rewrite startup_run, He. cbn [negb].
  pose proof (canWriteToProjectDir_calls env (parent projectFile) fs) as Hc1.
  destruct (canWriteToProjectDir env (parent projectFile) fs)
    as [[canWrite fs1] t1]. unfold result, finalFs in *.
  cbn [fst snd] in *. subst canWrite. cbn [negb].
  pose proof (computeScratchPath_calls env projectFile [] fs1) as Hc2.
  destruct (computeScratchPath env projectFile [] fs1)
    as [[[e2 scratchPath] fs2] t2]. unfold trace in *. cbn [fst snd] in *.
  rewrite Hs.
  destruct (env_readProjectFile env fs2 projectFile (defaultConfig env))
    as [[[e3 config] pd] msg]. cbn [fst snd] in *. cbv zeta. rewrite Hl.
  unfold startup_error, startup_userErrMsg, startup_context.
  cbn [fst snd]. repeat split.
  change (call_exists ?p :: ?t) with ([call_exists p] ++ t).
  rewrite !rewrites_app.
  by rewrite (rewrites_fileSystem _ Hc1), (rewrites_fileSystem _ Hc2).
Qed.

Lemma startup_load_failure_witness :
  let r := startup unreadable.env newProjectContext example.projectFile ""
             example.disk in
  startup_error (result r) = collaboratorError "codec" "parse error" /\
  startup_userErrMsg (result r) = "the project file is malformed" /\
  startup_context (result r) = newProjectContext /\
  fsys.exists_ (finalFs r) ["/"; "p"; ".Rproj.user"; "alice"; "ctx1"] = true /\
  rewrites (trace r) = [].
Proof.
  destruct (startup_load_failure unreadable.env newProjectContext
              example.projectFile "" example.disk eq_refl eq_refl eq_refl eq_refl)
    as (H1 & H2 & H3 & H4 & H5).
  split; [exact H1|]. split; [exact H2|]. split; [exact H3|].
  split; [rewrite H4; reflexivity | exact H5].
Defined.

(** X15: [startup] succeeds on a well-behaved disk.  When the project file
    exists in a directory, the probe name is free, the file system refuses
    nothing, no regular file is in the way of the scratch levels and the
    loader accepts the file, [startup] returns success with the project
    file, its parent as the directory, the scratch path and the monitor
    flag set. *)
Theorem startup_succeeds_when_permitted env ctx projectFile userErrMsg fs :
  fsys.exists_ fs projectFile = true ->
  fsys.isDirectory fs (parent projectFile) = true ->
  map_Forall
    (fun q _ => ~ complete (parent projectFile) (env_uuid env) `prefix_of` q)
    (nodes fs) ->
  (forall op, refuses fs op = None) ->
  noFileAbove fs (userLevelOf env projectFile) ->
  (forall fs',
     isError (env_readProjectFile env fs' projectFile (defaultConfig env)).1.1.1
     = false) ->
  let r := startup env ctx projectFile userErrMsg fs in
  startup_error (result r) = Success /\
  file_ (startup_context (result r)) = projectFile /\
  directory (startup_context (result r)) = parent projectFile /\
  scratchPath_ (startup_context (result r)) = scratchPathOf env projectFile /\
  hasFileMonitor (startup_context (result r)) = true.
Proof.
  intros He Hd Hfree Hr Hf Hl r. subst r.
  rewrite startup_run, He. cbn [negb].
  rewrite (canWriteToProjectDir_free_name env (parent projectFile) fs
             Hd Hfree (Hr _) (Hr _)). cbn [negb].
  pose proof (computeScratchPath_can_succeed env projectFile [] fs
                (fun p => Hr _) (Hr _) Hf) as Hok.
  pose proof (computeScratchPath_success env projectFile [] fs) as Hs.
  cbv zeta in Hs. rewrite Hok in Hs. destruct (Hs eq_refl) as [Hres _].
  destruct (computeScratchPath env projectFile [] fs) as [[[e2 sp] fs2] t2].
  unfold result in Hres. cbn [fst snd] in Hres. injection Hres as -> ->.
  cbn [isError]. specialize (Hl fs2).
  destruct (env_readProjectFile env fs2 projectFile (defaultConfig env))
    as [[[e3 config] pd] msg]. cbn [fst snd] in Hl. cbv zeta. rewrite Hl.
  destruct (env_writeProjectFile env fs2 projectFile config) as [fs3 e4].
  done.
Qed.

Lemma startup_succeeds_when_permitted_witness :
  let r := startup example.env newProjectContext example.projectFile ""
             example.disk in
  startup_error (result r) = Success /\
  file_ (startup_context (result r)) = example.projectFile /\
  directory (startup_context (result r)) = ["/"; "p"] /\
  scratchPath_ (startup_context (result r)) =
    ["/"; "p"; ".Rproj.user"; "alice"; "ctx1"] /\
  hasFileMonitor (startup_context (result r)) = true.
Proof.
  apply (startup_succeeds_when_permitted example.env newProjectContext
           example.projectFile "" example.disk).
  - reflexivity.
  - reflexivity.
  - compute_done.
  - reflexivity.
  - compute_done.
  - reflexivity.
Defined.

(** ** Subscribers *)

Lemma registerAll_members ctx cbs :
  let ctx' := registerAll ctx cbs in
  onFileMonitorRegistered_ ctx' =
    onFileMonitorRegistered_ ctx ++ omap onRegistered cbs /\
  onFileMonitorRegistrationError_ ctx' =
    onFileMonitorRegistrationError_ ctx ++ omap onRegistrationError cbs /\
  onMonitoringError_ ctx' = onMonitoringError_ ctx ++ omap onMonitoringError cbs /\
  onFilesChanged_ ctx' = onFilesChanged_ ctx ++ omap onFilesChanged cbs /\
  onFileMonitorUnregistered_ ctx' =
    onFileMonitorUnregistered_ ctx ++ omap onUnregistered cbs /\
  file_ ctx' = file_ ctx /\ directory_ ctx' = directory_ ctx /\
  scratchPath_ ctx' = scratchPath_ ctx /\ config_ ctx' = config_ ctx /\
  defaultEncoding_ ctx' = defaultEncoding_ ctx /\
  hasFileMonitor_ ctx' = hasFileMonitor_ ctx.
Proof.
  cbv zeta. unfold registerAll. revert ctx.
  induction cbs as [|cb cbs IH]; intros ctx.
  - cbn. by rewrite !app_nil_r.
  - cbn [foldl].
    destruct (IH (registerFileMonitorCallbacks ctx cb))
      as (-> & -> & -> & -> & -> & -> & -> & -> & -> & -> & ->).
    unfold registerFileMonitorCallbacks, connect_all, connect. cbn.
    destruct cb as [[a|] [b|] [c|] [d|] [e|]]; cbn;
      rewrite <- ?app_assoc; done.
Qed.

Lemma slotCalls_slots signal args :
  slotCalls (map (fun s => call_slot s args) signal) = map (fun s => (s, args)) signal.
Proof.
  unfold slotCalls. induction signal as [|s signal IH]; [done|].
  cbn. by rewrite IH.
Qed.

Lemma slotCalls_app t1 t2 : slotCalls (t1 ++ t2) = slotCalls t1 ++ slotCalls t2.
Proof. apply omap_app. Qed.

(** X16: subscribers are called in registration order.  After the
    callbacks of several subscribers have been registered one after the
    other, each monitor callback calls the functions registered for its
    own kind of event: first those already connected, then the new ones
    in the order of registration, each once and with the event's data;
    a subscriber that left a kind empty is skipped for that kind. *)
Theorem subscribers_called_in_registration_order ctx cbs fs :
  let ctx' := registerAll ctx cbs in
  (forall handle files,
     slotCalls (trace (fileMonitorRegistered ctx' handle files fs)) =
     map (fun s => (s, args_registered handle files))
       (onFileMonitorRegistered_ ctx ++ omap onRegistered cbs)) /\
  (forall error,
     slotCalls (trace (fileMonitorRegistrationError ctx' error fs)) =
     map (fun s => (s, args_error error))
       (onFileMonitorRegistrationError_ ctx ++ omap onRegistrationError cbs)) /\
  (forall error,
     slotCalls (trace (fileMonitorMonitoringError ctx' error fs)) =
     map (fun s => (s, args_error error))
       (onMonitoringError_ ctx ++ omap onMonitoringError cbs)) /\
  (forall events,
     slotCalls (trace (fileMonitorFilesChanged ctx' events fs)) =
     map (fun s => (s, args_filesChanged events))
       (onFilesChanged_ ctx ++ omap onFilesChanged cbs)) /\
  (forall handle,
     slotCalls (trace (fileMonitorUnregistered ctx' handle fs)) =
     map (fun s => (s, args_unregistered handle))
       (onFileMonitorUnregistered_ ctx ++ omap onUnregistered cbs)).
Proof.
  intros ctx'.
  destruct (registerAll_members ctx cbs) as (H1 & H2 & H3 & H4 & H5 & _).
  fold ctx' in H1, H2, H3, H4, H5.
  repeat split; intros;
    unfold fileMonitorRegistered, fileMonitorRegistrationError,
      fileMonitorMonitoringError, fileMonitorFilesChanged,
      fileMonitorUnregistered, LOG_ERROR, enqueFileChangedEvents, perform, emit,
      mbind, M_bind, mret, M_ret, trace;
    cbn [snd set_hasFileMonitor onFileMonitorRegistered_
           onFileMonitorRegistrationError_ onMonitoringError_ onFilesChanged_
           onFileMonitorUnregistered_];
    rewrite ?app_nil_r, ?slotCalls_app, slotCalls_slots;
    by rewrite ?H1, ?H2, ?H3, ?H4, ?H5.
Qed.

(** X17: registering callbacks is additive only.  It changes nothing but
    the subscriber lists: the answers of [isMonitoringDirectory], the
    preferences of [uiPrefs] and the project itself are the same after any
    number of registrations as before. *)
Theorem registration_changes_subscribers_only ctx cbs :
  let ctx' := registerAll ctx cbs in
  (forall dir, isMonitoringDirectory ctx' dir = isMonitoringDirectory ctx dir) /\
  uiPrefs ctx' = uiPrefs ctx /\
  hasProject ctx' = hasProject ctx /\
  file_ ctx' = file_ ctx /\ scratchPath_ ctx' = scratchPath_ ctx /\
  config ctx' = config ctx /\ defaultEncoding ctx' = defaultEncoding ctx.
Proof.
  intros ctx'.
  destruct (registerAll_members ctx cbs)
    as (_ & _ & _ & _ & _ & Hf & Hd & Hs & Hc & He & Hm).
  fold ctx' in Hf, Hd, Hs, Hc, He, Hm.
  unfold isMonitoringDirectory, uiPrefs, hasProject, hasFileMonitor, directory,
    config, defaultEncoding.
  rewrite Hf, Hd, Hs, Hc, He, Hm. done.
Qed.

(** ** Steps after [startup] *)

(** No step writes to the file system or changes the project: file,
    directory, scratch path and configuration stay what they are. *)
Lemma step_keeps_project env s ctx fs :
  let r := step env s ctx fs in
  finalFs r = fs /\
  file_ (result r) = file_ ctx /\ directory_ (result r) = directory_ ctx /\
  scratchPath_ (result r) = scratchPath_ ctx /\ config_ (result r) = config_ ctx.
Proof.
  destruct s; cbv zeta; try done.
  unfold step. rewrite run_bind.
  pose proof (initialize_run env ctx fs) as Hrun. cbv zeta in Hrun.
  destruct (hasProject ctx) eqn:Hp.
  - specialize (Hrun eq_refl).
    destruct (env_RFunction env _ _) as [error value]. rewrite Hrun.
    destruct (isError error); [done|]. by case_bool_decide.
  - by rewrite (initialize_no_project _ _ _ Hp).
Qed.

Lemma step_monitor_flag env s ctx fs :
  hasFileMonitor_ (result (step env s ctx fs))
  = monitorFlagAfter (hasFileMonitor_ ctx) [s].
Proof.
  destruct s; try done. cbn [monitorFlagAfter].
  destruct (initialize_keeps env ctx fs) as (_ & _ & Hm).
  unfold step. rewrite run_bind.
  destruct (initialize env ctx fs) as [[[e c] fs'] t]. by cbn in *.
Qed.

Lemma monitorFlagAfter_cons b s steps :
  monitorFlagAfter b (s :: steps) = monitorFlagAfter (monitorFlagAfter b [s]) steps.
Proof. by destruct s. Qed.

Lemma runSteps_keeps env steps ctx fs :
  let final := runSteps env steps ctx fs in
  final.2 = fs /\
  file_ final.1 = file_ ctx /\ directory_ final.1 = directory_ ctx /\
  scratchPath_ final.1 = scratchPath_ ctx /\ config_ final.1 = config_ ctx /\
  hasFileMonitor_ final.1 = monitorFlagAfter (hasFileMonitor_ ctx) steps.
Proof.
  cbv zeta. revert ctx fs. induction steps as [|s steps IH]; intros ctx fs.
  - done.
  - cbn [runSteps]. rewrite monitorFlagAfter_cons.
    destruct (step_keeps_project env s ctx fs) as (Hfs & Hf & Hd & Hs & Hc).
    pose proof (step_monitor_flag env s ctx fs) as Hm.
    destruct (IH (result (step env s ctx fs)) (finalFs (step env s ctx fs)))
      as (-> & -> & -> & -> & -> & ->).
    by rewrite Hfs, Hf, Hd, Hs, Hc, Hm.
Qed.

(** X18: once [startup] has set it, the project is immutable and the disk
    is left alone.  Whatever sequence of [initialize], deferred init,
    registrations of callbacks and monitor callbacks follows, the project
    file, the directory, the scratch path and the configuration are the
    ones [startup] stored, and the file system is never written to. *)
Theorem steps_keep_project_and_disk env steps ctx fs :
  let final := runSteps env steps ctx fs in
  final.2 = fs /\
  file_ final.1 = file_ ctx /\ directory final.1 = directory ctx /\
  scratchPath_ final.1 = scratchPath_ ctx /\ config final.1 = config ctx /\
  hasProject final.1 = hasProject ctx.
Proof.
  intros final.
  destruct (runSteps_keeps env steps ctx fs) as (Hfs & Hf & Hd & Hs & Hc & _).
  fold final in Hfs, Hf, Hd, Hs, Hc.
  unfold directory, config, hasProject. by rewrite Hfs, Hf, Hd, Hs, Hc.
Qed.

(** X19: after a successful [startup], whatever happens next, what
    [isMonitoringDirectory] answers for the project directory is decided by
    the monitor's last word: [true] after a registration, [false] after a
    registration error or an unregistration, and [true], the value
    [startup] assumed, as long as none of the three has been called.
    Monitoring errors, file changes, [initialize], deferred init and
    registrations of callbacks do not count. *)
Theorem monitoring_follows_last_registration_event
    env ctx projectFile userErrMsg fs steps :
  let r := startup env ctx projectFile userErrMsg fs in
  let final := runSteps env steps (startup_context (result r)) (finalFs r) in
  isError (startup_error (result r)) = false ->
  isMonitoringDirectory final.1 (parent projectFile) = monitorFlagAfter true steps.
Proof.
  intros r final Hok.
  destruct (startup_cases env ctx projectFile userErrMsg fs)
    as [[Herr _] | (_ & He & _ & config & _ & _ & _ & Hctx)];
    fold r in Herr || fold r in Hctx; [congruence|].
  destruct (runSteps_keeps env steps (startup_context (result r)) (finalFs r))
    as (_ & Hf & Hd & _ & _ & Hm).
  fold final in Hf, Hd, Hm.
  unfold isMonitoringDirectory, hasProject, hasFileMonitor, directory, isWithin.
  rewrite Hf, Hd, Hm, Hctx. cbn.
  rewrite bool_decide_eq_true_2 by done. rewrite andb_true_r.
  by destruct projectFile.
Qed.

Lemma monitoring_follows_last_registration_event_witness :
  let r := startup example.env newProjectContext example.projectFile ""
             example.disk in
  let steps := [do_initialize; do_onDeferredInit;
                do_fileMonitorRegistrationError (systemError io_error);
                do_fileMonitorMonitoringError (systemError io_error);
                do_fileMonitorRegistered 7 [];
                do_fileMonitorFilesChanged []] in
  let final := runSteps example.env steps (startup_context (result r)) (finalFs r) in
  isMonitoringDirectory final.1 ["/"; "p"] = true.
Proof.
  apply (monitoring_follows_last_registration_event example.env newProjectContext
           example.projectFile "" example.disk).
  reflexivity.
Defined.

(** X20: after a successful [startup], at any later point, the deferred
    init registers exactly one monitor: on the project directory, the
    parent of the project file, and recursive. *)
Theorem onDeferredInit_monitors_project_directory
    env ctx projectFile userErrMsg fs steps :
  let r := startup env ctx projectFile userErrMsg fs in
  let final := runSteps env steps (startup_context (result r)) (finalFs r) in
  isError (startup_error (result r)) = false ->
  monitorRegistrations (trace (onDeferredInit final.1 final.2))
  = [(parent projectFile, true)].
Proof.
  intros r final Hok.
  destruct (startup_cases env ctx projectFile userErrMsg fs)
    as [[Herr _] | (_ & He & _ & config & _ & _ & _ & Hctx)];
    fold r in Herr || fold r in Hctx; [congruence|].
  destruct (runSteps_keeps env steps (startup_context (result r)) (finalFs r))
    as (_ & _ & Hd & _).
  fold final in Hd.
  unfold onDeferredInit, registerMonitor, perform, directory.
  rewrite run_bind, run_ret. unfold trace, monitorRegistrations. cbn.
  by rewrite Hd, Hctx.
Qed.

Lemma onDeferredInit_monitors_project_directory_witness :
  let r := startup example.env newProjectContext example.projectFile ""
             example.disk in
  let final := runSteps example.env [do_initialize]
                 (startup_context (result r)) (finalFs r) in
  monitorRegistrations (trace (onDeferredInit final.1 final.2))
  = [(["/"; "p"], true)].
Proof.
  apply (onDeferredInit_monitors_project_directory example.env newProjectContext
           example.projectFile "" example.disk [do_initialize]).
  reflexivity.
Defined.

(** ** [uiPrefs] and [isMonitoringDirectory] *)

(** X21: [uiPrefs] has exactly three members, [use_spaces_for_tab],
    [num_spaces_for_tab] and [default_encoding], holding the two tab
    settings of the configuration and the resolved default encoding. *)
Theorem uiPrefs_members ctx :
  dom (uiPrefs ctx) =
    ({["use_spaces_for_tab"; "num_spaces_for_tab"; "default_encoding"]} : gset string) /\
  uiPrefs ctx !! "use_spaces_for_tab" = Some (json_bool (useSpacesForTab (config ctx))) /\
  uiPrefs ctx !! "num_spaces_for_tab" = Some (json_int (numSpacesForTab (config ctx))) /\
  uiPrefs ctx !! "default_encoding" = Some (json_string (defaultEncoding ctx)).
Proof.
  unfold uiPrefs. split; [|split; [|split]].
  - rewrite !dom_insert_L, dom_empty_L. set_solver.
  - rewrite !lookup_insert_ne by done. by rewrite lookup_insert_eq.
  - rewrite lookup_insert_ne by done. by rewrite lookup_insert_eq.
  - by rewrite lookup_insert_eq.
Qed.

(** X22: what is monitored is a whole subtree.  When
    [isMonitoringDirectory] answers [true] for a directory it answers
    [true] for every directory at or below it; with no project it answers
    [false] for every directory. *)
Theorem isMonitoringDirectory_subtree ctx dir :
  (isMonitoringDirectory ctx dir = true ->
   forall below, isMonitoringDirectory ctx (dir ++ below) = true) /\
  (hasProject ctx = false -> isMonitoringDirectory ctx dir = false).
Proof.
  unfold isMonitoringDirectory, isWithin. split.
  - rewrite !andb_true_iff, bool_decide_eq_true. intros [H Hpre] below.
    rewrite !andb_true_iff, bool_decide_eq_true. split; [done|].
    by apply prefix_app_r.
  - by intros ->.
Qed.

Lemma isMonitoringDirectory_subtree_witness :
  isMonitoringDirectory (example.context "UTF-8") ["/"; "p"; "src"; "lib"] = true /\
  isMonitoringDirectory newProjectContext ["/"; "p"] = false.
Proof.
  split.
  - destruct (isMonitoringDirectory_subtree (example.context "UTF-8") ["/"; "p"])
      as [H _].
    exact (H eq_refl ["src"; "lib"]).
  - destruct (isMonitoringDirectory_subtree newProjectContext ["/"; "p"])
      as [_ H].
    exact (H eq_refl).
Defined.
